(** * Production build orchestration (packages/vite/src/node/build.ts)

    A shallow embedding of the decision logic of [build.ts]: the
    normalisation of the build options, the assembly of the plugin list,
    the resolution of the output targets in library mode and the
    classification of the bundler's warnings.

    JavaScript objects that are used as open dictionaries (output
    options, minifier options, parsed JSON) are finite maps from property
    names to values; the option records of [build.ts], whose fields are
    fixed by an interface, are Rocq records.  Exceptions and calls to
    the functions received as arguments are explicit in the result of
    the functions that throw or call.  A string is the sequence of its
    code units; nothing below depends on the size of the alphabet. *)

From Stdlib Require Import ZArith String Ascii List Bool.
From stdpp Require Import base gmap strings list fin_maps pretty.

Open Scope string_scope.

(** ** JavaScript values *)

(** The values that flow through the dictionaries of this file.  A
    function (or any object only passed along) is its identity.  No
    arithmetic is done on numbers, which are only tested for zero. *)
#[warnings="-register-all"]
Inductive value :=
| VUndefined
| VNull
| VBool (b : bool)
| VNumber (n : Z)
| VString (s : string)
| VArray (elems : list value)
| VObject (props : gmap string value)
| VFunction (id : positive).

(** The characters a string literal cannot hold. *)
Definition nl : string := String (ascii_of_nat 10) EmptyString.
Definition dquote : string := String (ascii_of_nat 34) EmptyString.
Definition backtick : string := String (ascii_of_nat 96) EmptyString.

(** [ToBoolean] on strings: every string but the empty one is truthy. *)
Definition truthy_string (s : string) : bool :=
  match s with
  | EmptyString => false
  | String _ _ => true
  end.

(** [ToBoolean]. *)
Definition truthy (v : value) : bool :=
  match v with
  | VUndefined | VNull => false
  | VBool b => b
  | VNumber n => negb (n =? 0)%Z
  | VString s => truthy_string s
  | VArray _ | VObject _ | VFunction _ => true
  end.

(** A property that may be absent, read as a value. *)
Definition of_string_opt (o : option string) : value :=
  match o with
  | Some s => VString s
  | None => VUndefined
  end.

(** [`${x}`] for [x : string | undefined]. *)
Definition template_opt (o : option string) : string :=
  match o with
  | Some s => s
  | None => "undefined"
  end.

(** [a || b] for [a : string | undefined]. *)
Definition or_string (a : option string) (b : string) : string :=
  match a with
  | Some s => if truthy_string s then s else b
  | None => b
  end.

(** [s.includes(sub)] on strings. *)
Fixpoint includes (s sub : string) : bool :=
  String.prefix sub s ||
  match s with
  | EmptyString => false
  | String _ s' => includes s' sub
  end.

(** [l.includes(x)] on an array of strings. *)
Definition array_includes (l : list string) (x : string) : bool :=
  existsb (String.eqb x) l.

(** [s.endsWith(sub)] for a one-character [sub]. *)
Fixpoint ends_with (s : string) (c : ascii) : bool :=
  match s with
  | EmptyString => false
  | String a EmptyString => Ascii.eqb a c
  | String _ s' => ends_with s' c
  end.

(** [s.replace(/([^/])$/, '$1/')].  The pattern has no flag: [$] is the
    end of the input and the class [[^/]] takes any one character that is
    not a slash, so the only position where it can match is the last
    character.  The scan goes through the positions from the left; at the
    matching position the captured character is written back, followed by
    a slash.  Without a match the string is returned as it is. *)
Fixpoint replace_final_non_slash (s : string) : string :=
  match s with
  | EmptyString => EmptyString
  | String c s' =>
      match s' with
      | EmptyString =>
          if Ascii.eqb c "/" then String c EmptyString
          else String c (String "/" EmptyString)
      | String _ _ => String c (replace_final_non_slash s')
      end
  end.

(** ** Build options *)

Inductive LibraryFormats := es | cjs | umd | iife.

#[global] Instance LibraryFormats_eq_dec : EqDecision LibraryFormats.
Proof. solve_decision. Defined.

(** The string a format is at run time. *)
Definition format_string (f : LibraryFormats) : string :=
  match f with
  | es => "es"
  | cjs => "cjs"
  | umd => "umd"
  | iife => "iife"
  end.

Record LibraryOptions := {
  entry : string;
  name : option string;
  formats : option (list LibraryFormats)
}.

(** [sourcemap?: boolean | 'inline'] *)
Inductive SourcemapOption := SourcemapBool (b : bool) | SourcemapInline.

(** [minify?: boolean | 'terser' | 'esbuild'].  The resolver compares
    the field with the string ['false'], which the declared type does not
    hold: the field is a boolean or any string. *)
Inductive MinifyOption := MinifyBool (b : bool) | MinifyString (s : string).

#[global] Instance MinifyOption_eq_dec : EqDecision MinifyOption.
Proof. solve_decision. Defined.

(** The values of the declared type of [minify]. *)
Definition minify_declared (m : MinifyOption) : Prop :=
  match m with
  | MinifyBool _ => True
  | MinifyString s => s = "terser" \/ s = "esbuild"
  end.

(** [ToBoolean] on a [minify] value. *)
Definition truthy_minify (m : MinifyOption) : bool :=
  match m with
  | MinifyBool b => b
  | MinifyString s => truthy_string s
  end.

(** An output target of the bundler: a dictionary of output options. *)
Abbreviation OutputOptions := (gmap string value).

(** [OutputOptions | OutputOptions[] | undefined] *)
Inductive Outputs :=
| OutUndefined
| OutSingle (o : OutputOptions)
| OutArray (os : list OutputOptions).

(** A plugin object that was built outside this file. *)
Record ExternalPlugin := {
  plugin_name : string;
  plugin_hooks : gmap string value
}.

(** The bundler options handed through: the fields [build.ts] reads and
    the dictionary of the others. *)
Record RollupOptions := {
  input : option value;
  plugins : option (list ExternalPlugin);
  output : Outputs;
  onwarn : option positive;
  other_options : gmap string value
}.

(** [{}] *)
Definition no_rollup_options : RollupOptions :=
  {| input := None; plugins := None; output := OutUndefined;
     onwarn := None; other_options := ∅ |}.

(** [BuildOptions]: every field is optional; [None] is an absent field. *)
Module Raw.
Record BuildOptions := {
  base : option string;
  outDir : option string;
  assetsDir : option string;
  assetsInlineLimit : option Z;
  cssCodeSplit : option bool;
  sourcemap : option SourcemapOption;
  minify : option MinifyOption;
  terserOptions : option (gmap string value);
  rollupOptions : option RollupOptions;
  write : option bool;
  manifest : option bool;
  lib : option (option LibraryOptions)
}.
End Raw.

(** [Required<BuildOptions>].  In [lib], [None] is [false]. *)
Record BuildOptions := {
  base : string;
  outDir : string;
  assetsDir : string;
  assetsInlineLimit : Z;
  cssCodeSplit : bool;
  sourcemap : SourcemapOption;
  minify : MinifyOption;
  terserOptions : gmap string value;
  rollupOptions : RollupOptions;
  write : bool;
  manifest : bool;
  lib : option LibraryOptions
}.

(** A resolved record read as a [BuildOptions]: every field is present. *)
Definition as_raw (o : BuildOptions) : Raw.BuildOptions :=
  {| Raw.base := Some (base o);
     Raw.outDir := Some (outDir o);
     Raw.assetsDir := Some (assetsDir o);
     Raw.assetsInlineLimit := Some (assetsInlineLimit o);
     Raw.cssCodeSplit := Some (cssCodeSplit o);
     Raw.sourcemap := Some (sourcemap o);
     Raw.minify := Some (minify o);
     Raw.terserOptions := Some (terserOptions o);
     Raw.rollupOptions := Some (rollupOptions o);
     Raw.write := Some (write o);
     Raw.manifest := Some (manifest o);
     Raw.lib := Some (lib o) |}.

(** The literal the resolver starts from. *)
Definition defaults : BuildOptions :=
  {| base := "/";
     outDir := "dist";
     assetsDir := "assets";
     assetsInlineLimit := 4096;
     cssCodeSplit := true;
     sourcemap := SourcemapBool false;
     rollupOptions := no_rollup_options;
     minify := MinifyString "terser";
     terserOptions := ∅;
     write := true;
     manifest := false;
     lib := None |}.

(** [{ ...d, ...raw }]: a field present in [raw] replaces the one of [d]. *)
Definition spread (d : BuildOptions) (raw : option Raw.BuildOptions) : BuildOptions :=
  match raw with
  | None => d
  | Some r =>
      {| base := default (base d) (Raw.base r);
         outDir := default (outDir d) (Raw.outDir r);
         assetsDir := default (assetsDir d) (Raw.assetsDir r);
         assetsInlineLimit := default (assetsInlineLimit d) (Raw.assetsInlineLimit r);
         cssCodeSplit := default (cssCodeSplit d) (Raw.cssCodeSplit r);
         sourcemap := default (sourcemap d) (Raw.sourcemap r);
         rollupOptions := default (rollupOptions d) (Raw.rollupOptions r);
         minify := default (minify d) (Raw.minify r);
         terserOptions := default (terserOptions d) (Raw.terserOptions r);
         write := default (write d) (Raw.write r);
         manifest := default (manifest d) (Raw.manifest r);
         lib := default (lib d) (Raw.lib r) |}
  end.

(** [resolved.base = v] *)
Definition set_base (v : string) (o : BuildOptions) : BuildOptions :=
  {| base := v; outDir := outDir o; assetsDir := assetsDir o;
     assetsInlineLimit := assetsInlineLimit o; cssCodeSplit := cssCodeSplit o;
     sourcemap := sourcemap o; rollupOptions := rollupOptions o;
     minify := minify o; terserOptions := terserOptions o;
     write := write o; manifest := manifest o; lib := lib o |}.

(** [resolved.minify = v] *)
Definition set_minify (v : MinifyOption) (o : BuildOptions) : BuildOptions :=
  {| base := base o; outDir := outDir o; assetsDir := assetsDir o;
     assetsInlineLimit := assetsInlineLimit o; cssCodeSplit := cssCodeSplit o;
     sourcemap := sourcemap o; rollupOptions := rollupOptions o;
     minify := v; terserOptions := terserOptions o;
     write := write o; manifest := manifest o; lib := lib o |}.

Definition resolveBuildOptions (raw : option Raw.BuildOptions) : BuildOptions :=
  let resolved := spread defaults raw in
  (* ensure base ending slash *)
  let resolved := set_base (replace_final_non_slash (base resolved)) resolved in
  (* normalize false string into actual false *)
  if decide (minify resolved = MinifyString "false")
  then set_minify (MinifyBool false) resolved
  else resolved.

(** ** The plugin list *)

(** The plugin objects of the list: those received from the user's
    bundler options, and the ones the factories called by
    [resolveBuildPlugins] build, with the arguments of the call (the
    factories that receive the whole configuration are recorded without
    it). *)
Inductive Plugin :=
| User (p : ExternalPlugin)
| commonjsPlugin (include extensions : list string)
| buildHtmlPlugin
| buildDefinePlugin
| dynamicImportVars (warnOnError : bool) (exclude : list string)
| buildEsbuildPlugin
| terserPlugin (options : gmap string value)
| manifestPlugin
| buildReporterPlugin.

(** The fields of [ResolvedConfig] that [build.ts] reads. *)
Record ResolvedConfig := {
  root : string;
  build : BuildOptions;
  logLevel : option string
}.

Definition resolveBuildPlugins (config : ResolvedConfig) : list Plugin :=
  let options := build config in
  map User (default [] (plugins (rollupOptions options))) ++
  [ commonjsPlugin ["node_modules"] [".js"; ".cjs"];
    buildHtmlPlugin;
    buildDefinePlugin;
    dynamicImportVars true ["node_modules"];
    buildEsbuildPlugin ] ++
  (if truthy_minify (minify options) &&
      negb (bool_decide (minify options = MinifyString "esbuild"))
   then [terserPlugin (terserOptions options)]
   else []) ++
  (if manifest options then [manifestPlugin] else []) ++
  (if negb (truthy (of_string_opt (logLevel config))) ||
      bool_decide (logLevel config = Some "info")
   then [buildReporterPlugin]
   else []).

(** The list holds a plugin that [terserPlugin] built. *)
Definition is_terser (p : Plugin) : bool :=
  match p with
  | terserPlugin _ => true
  | _ => false
  end.

Definition contains_terser (l : list Plugin) : bool := existsb is_terser l.

(** ** Effects *)

(** What the bundler reports to [onwarn]: the fields of [RollupWarning]
    that are read here or named by the properties below. *)
Record RollupWarning := {
  code : option string;
  message : string;
  source : option string;
  importer : option string;
  plugin : option string;
  loc : option (string * Z * Z);
  frame : option string
}.

(** A function received as an argument is its identity. *)
Abbreviation Handler := positive.

(** The calls a function of this file makes to what it was handed. *)
Inductive Call :=
| LoggerWarn (msg : string)
| CallWarn (warn : Handler) (warning : RollupWarning)
| CallUserOnWarn (userOnWarn : Handler) (warning : RollupWarning) (warn : Handler).

Inductive Exception :=
| Error (message : string)
| SyntaxError
| TypeError.

(** A computation: the calls made, in order, and how it ends. *)
Definition M (A : Type) : Type := list Call * (Exception + A).

Definition ret {A} (a : A) : M A := ([], inr a).
Definition throw {A} (e : Exception) : M A := ([], inl e).
Definition call (c : Call) : M unit := ([c], inr tt).
Definition bind {A B} (m : M A) (k : A -> M B) : M B :=
  match m with
  | (cs, inl e) => (cs, inl e)
  | (cs, inr a) => let '(cs', r) := k a in ((cs ++ cs')%list, r)
  end.

Notation "x <- m ;; k" := (bind m (fun x => k))
  (at level 100, m at next level, right associativity).
Notation "m ;;; k" := (bind m (fun _ => k))
  (at level 100, right associativity).

(** The calls of a computation, and whether it threw. *)
Definition calls {A} (m : M A) : list Call := fst m.
Definition throws {A} (m : M A) : bool :=
  match snd m with
  | inl _ => true
  | inr _ => false
  end.

(** What [build.ts] imports from outside the repository's code, and the
    manifest lookup of [./utils], which reads the file system.
    [JSON_parse] is [None] where [JSON.parse] throws a [SyntaxError]. *)
Class Platform := {
  isBuiltin : string -> bool;
  lookupFile : string -> list string -> option string;
  JSON_parse : string -> option value;
  chalk_yellow : value -> string;
  chalk_gray : value -> string
}.

(** [v.name] for a value that [JSON.parse] returned: a [TypeError] on
    [null], the property of an object, [undefined] on the other values. *)
Definition get_name (v : value) : M value :=
  match v with
  | VUndefined | VNull => throw TypeError
  | VObject props => ret (default VUndefined (props !! "name"))
  | _ => ret VUndefined
  end.

(** [l.includes(v)] on an array of strings, for any value [v]. *)
Definition array_includes_value (l : list string) (v : value) : bool :=
  match v with
  | VString s => array_includes l s
  | _ => false
  end.

(** ** Output targets *)

(** [libOptions.formats || ['es', 'umd']]: an array is truthy, also the
    empty one. *)
Definition requested_formats (libOptions : LibraryOptions) : list LibraryFormats :=
  match formats libOptions with
  | Some fs => fs
  | None => [es; umd]
  end.

(** The same library options with another [name]. *)
Definition with_name (n : option string) (libOptions : LibraryOptions) : LibraryOptions :=
  {| entry := entry libOptions; name := n; formats := formats libOptions |}.

(** [!libOptions.name] *)
Definition name_missing (libOptions : LibraryOptions) : bool :=
  negb (truthy (of_string_opt (name libOptions))).

(** [formats.includes(f)] *)
Definition formats_include (fs : list LibraryFormats) (f : LibraryFormats) : bool :=
  bool_decide (f ∈ fs).

(** [{ ...outputs, format }] *)
Definition with_format (outputs : OutputOptions) (f : LibraryFormats) : OutputOptions :=
  <["format" := VString (format_string f)]> outputs.

Definition name_required_message : string :=
  "Option " +:+ dquote +:+ "build.lib.name" +:+ dquote +:+
  " is required when output formats " +:+
  "include " +:+ dquote +:+ "umd" +:+ dquote +:+ " or " +:+
  dquote +:+ "iife" +:+ dquote +:+ ".".

Definition formats_ignored_message : string :=
  dquote +:+ "build.lib.formats" +:+ dquote +:+
  " will be ignored because " +:+
  dquote +:+ "build.rollupOptions.output" +:+ dquote +:+
  " is already an array format".

Section WithPlatform.
Context `{Platform}.

Definition resolveBuildOutputs
    (outputs : Outputs) (libOptions : option LibraryOptions) : M Outputs :=
  match libOptions with
  | Some libOptions =>
      let formats_ := requested_formats libOptions in
      if (formats_include formats_ umd || formats_include formats_ iife) &&
         name_missing libOptions
      then throw (Error name_required_message)
      else
        match outputs with
        | OutUndefined => ret (OutArray (with_format ∅ <$> formats_))
        | OutSingle o => ret (OutArray (with_format o <$> formats_))
        | OutArray _ =>
            match formats libOptions with
            | Some _ =>
                (* user explicitly specifying own output array *)
                call (LoggerWarn (chalk_yellow (VString formats_ignored_message))) ;;;
                ret outputs
            | None => ret outputs
            end
        end
  | None => ret outputs
  end.

(** The arguments of the calls of [generate] that [doBuild] makes for the
    resolved outputs: one per element of an array, one otherwise. *)
Definition generate_calls (outputs : Outputs) : list (option OutputOptions) :=
  match outputs with
  | OutArray os => Some <$> os
  | OutSingle o => [Some o]
  | OutUndefined => [None]
  end.

(** ** Warnings *)

Definition warningIgnoreList : list string :=
  ["CIRCULAR_DEPENDENCY"; "THIS_IS_UNDEFINED"].

Definition dynamicImportWarningIgnoreList : list string :=
  ["Unsupported expression"; "statically analyzed"].

(** [id && isBuiltin(id)]: the id, when the test passes. *)
Definition builtin_id (id : option string) : option string :=
  match id with
  | Some i => if truthy_string i && isBuiltin i then Some i else None
  | None => None
  end.

(** [JSON.parse(text)] *)
Definition parse (text : string) : M value :=
  match JSON_parse text with
  | Some v => ret v
  | None => throw SyntaxError
  end.

(** The name of the package that imports, read from the nearest manifest
    of the importer: [undefined] without a truthy importer, and without
    a truthy [name] in the manifest. *)
Definition importing_dep (importer : option string) : M value :=
  match importer with
  | Some imp =>
      if truthy_string imp then
        pkg <- parse (or_string (lookupFile imp ["package.json"]) "{}") ;;
        pkg_name <- get_name pkg ;;
        ret (if truthy pkg_name then pkg_name else VUndefined)
      else ret VUndefined
  | None => ret VUndefined
  end.

Definition builtin_message (importingDep : value) (id : string)
    (importer : option string) : string :=
  let dep :=
    if truthy importingDep
    then "Dependency " +:+ chalk_yellow importingDep
    else "A dependency" in
  dep +:+ " is attempting to import Node built-in module " +:+
  chalk_yellow (VString id) +:+ "." +:+ nl +:+
  "This will not work in a browser environment." +:+ nl +:+
  "Imported by: " +:+ chalk_gray (of_string_opt importer).

Definition unresolved_message (warning : RollupWarning) : string :=
  "[vite]: Rollup failed to resolve import " +:+ dquote +:+
  template_opt (source warning) +:+ dquote +:+ " from " +:+ dquote +:+
  template_opt (importer warning) +:+ dquote +:+ "." +:+ nl +:+
  "This is most likely unintended because it can break your application at runtime." +:+ nl +:+
  "If you do want to externalize this module explicitly add it to" +:+ nl +:+
  backtick +:+ "rollupInputOptions.external" +:+ backtick.

Definition onRollupWarning
    (warning : RollupWarning) (warn : Handler)
    (allowNodeBuiltins : option (list string))
    (userOnWarn : option Handler) : M unit :=
  let allowNodeBuiltins := default [] allowNodeBuiltins in
  if bool_decide (code warning = Some "UNRESOLVED_IMPORT") then
    let id := source warning in
    let importer := importer warning in
    match builtin_id id with
    | Some id =>
        importingDep <- importing_dep importer ;;
        if truthy importingDep && array_includes_value allowNodeBuiltins importingDep
        then ret tt
        else throw (Error (builtin_message importingDep id importer))
    | None => throw (Error (unresolved_message warning))
    end
  else if bool_decide (plugin warning = Some "rollup-plugin-dynamic-import-variables") &&
          existsb (fun msg => includes (message warning) msg)
                  dynamicImportWarningIgnoreList
  then ret tt
  else if negb (match code warning with
                | Some c => array_includes warningIgnoreList c
                | None => false
                end)
  then
    match userOnWarn with
    | Some userOnWarn => call (CallUserOnWarn userOnWarn warning warn)
    | None => call (CallWarn warn warning)
    end
  else ret tt.

End WithPlatform.

(** ** Generation *)

(** What [doBuild] reads besides the platform: the conversion of a value
    in a template literal, and the two functions of [path]. *)
Class Runtime := {
  ToString : value -> string;
  path_resolve : string -> string -> string;
  path_posix_join : string -> string -> string
}.

(** [options.sourcemap] as a value. *)
Definition sourcemap_value (s : SourcemapOption) : value :=
  match s with
  | SourcemapBool b => VBool b
  | SourcemapInline => VString "inline"
  end.

(** The call [doBuild] makes on the bundle for one output. *)
Inductive BundleCall :=
| BundleWrite (options : OutputOptions)
| BundleGenerate (options : OutputOptions).

Definition bundle_call_options (c : BundleCall) : OutputOptions :=
  match c with
  | BundleWrite o => o
  | BundleGenerate o => o
  end.

Section Generation.
Context `{Platform} `{Runtime}.

(** [libOptions && JSON.parse(lookupFile(config.root, ['package.json']) || '{}').name] *)
Definition package_name (config : ResolvedConfig) : M value :=
  match lib (build config) with
  | Some _ =>
      pkg <- parse (or_string (lookupFile (root config) ["package.json"]) "{}") ;;
      get_name pkg
  | None => ret (VBool false)
  end.

(** [output.format || 'es'] *)
Definition format_or_es (output : OutputOptions) : value :=
  let format := default VUndefined (output !! "format") in
  if truthy format then format else VString "es".

(** The properties written before [...output] in the literal of
    [generate]. *)
Definition generate_defaults
    (config : ResolvedConfig) (pkgName : value) (output : OutputOptions) : OutputOptions :=
  let options := build config in
  let libOptions := lib options in
  let outDir_ := path_resolve (root config) (outDir options) in
  list_to_map
    [ ("dir", VString outDir_);
      ("format", VString "es");
      ("exports", VString "auto");
      ("sourcemap", sourcemap_value (sourcemap options));
      ("name", match libOptions with
               | Some l => of_string_opt (name l)
               | None => VUndefined
               end);
      ("entryFileNames",
        VString match libOptions with
                | Some _ =>
                    ToString pkgName +:+ "." +:+ ToString (format_or_es output) +:+ ".js"
                | None => path_posix_join (assetsDir options) "[name].[hash].js"
                end);
      ("chunkFileNames",
        VString match libOptions with
                | Some _ => "[name].js"
                | None => path_posix_join (assetsDir options) "[name].[hash].js"
                end);
      ("assetFileNames",
        VString match libOptions with
                | Some _ => "[name].[ext]"
                | None => path_posix_join (assetsDir options) "[name].[hash].[ext]"
                end);
      (* #764 add `Symbol.toStringTag` when build es module into cjs chunk *)
      (* #1048 add `Symbol.toStringTag` for module default export *)
      ("namespaceToStringTag", VBool true) ].

(** [generate(output)]: the call made on the bundle.  An absent argument
    is [{}]; the properties of [output] are spread last. *)
Definition generate
    (config : ResolvedConfig) (pkgName : value) (output : option OutputOptions) : BundleCall :=
  let output := default ∅ output in
  let options := output ∪ generate_defaults config pkgName output in
  if write (build config) then BundleWrite options else BundleGenerate options.

(** The end of the [try] block of [doBuild]: the outputs are resolved and
    [generate] is called for each. *)
Definition doBuild_generate (config : ResolvedConfig) (pkgName : value) : M (list BundleCall) :=
  outputs <- resolveBuildOutputs (output (rollupOptions (build config)))
                                 (lib (build config)) ;;
  ret (generate config pkgName <$> generate_calls outputs).

(** The [onwarn] that [doBuild] hands to the bundler. *)
Definition doBuild_onwarn (config : ResolvedConfig)
    (warning : RollupWarning) (warn : Handler) : M unit :=
  onRollupWarning warning warn (Some []) (onwarn (rollupOptions (build config))).

End Generation.

(** ** Parallel builds *)

(** A bundle is its identity. *)
Abbreviation RollupBuild := positive.

(** The two variables of the module. *)
Record Tracker := {
  parallelCallCounts : Z;
  paralellBuilds : list RollupBuild
}.

(** The module when it is loaded. *)
Definition tracker_loaded : Tracker :=
  {| parallelCallCounts := 0; paralellBuilds := [] |}.

(** [parallelCallCounts++], the first statement of [build]. *)
Definition build_enter (t : Tracker) : Tracker :=
  {| parallelCallCounts := parallelCallCounts t + 1;
     paralellBuilds := paralellBuilds t |}.

(** [paralellBuilds.push(bundle)] in [doBuild]. *)
Definition doBuild_push (bundle : RollupBuild) (t : Tracker) : Tracker :=
  {| parallelCallCounts := parallelCallCounts t;
     paralellBuilds := (paralellBuilds t ++ [bundle])%list |}.

(** The [finally] block of [build]: the tracker after it, and the bundles
    on which [close] was called, in the order of the calls. *)
Definition build_finally (t : Tracker) : Tracker * list RollupBuild :=
  let count := (parallelCallCounts t - 1)%Z in
  if (count <=? 0)%Z
  then ({| parallelCallCounts := count; paralellBuilds := [] |}, paralellBuilds t)
  else ({| parallelCallCounts := count; paralellBuilds := paralellBuilds t |}, []).

(** The process while calls of [build] overlap.  Between two [await]s a
    call runs alone, so a call takes part in three atomic steps: it
    enters, it may register the bundle that [rollup.rollup] returned, it
    runs its [finally] block.  Besides the tracker the state records, for
    the statements below, the calls that have entered and not yet run
    their [finally] block (with [true] once the call has registered its
    bundle), every bundle registered so far and every bundle closed so
    far. *)
Record Process := {
  tracker : Tracker;
  in_flight : gmap positive bool;
  registered : list RollupBuild;
  closed : list RollupBuild
}.

Definition process_loaded : Process :=
  {| tracker := tracker_loaded; in_flight := ∅; registered := []; closed := [] |}.

Definition enter (c : positive) (p : Process) : Process :=
  {| tracker := build_enter (tracker p);
     in_flight := <[c := false]> (in_flight p);
     registered := registered p;
     closed := closed p |}.

Definition register (c : positive) (bundle : RollupBuild) (p : Process) : Process :=
  {| tracker := doBuild_push bundle (tracker p);
     in_flight := <[c := true]> (in_flight p);
     registered := (registered p ++ [bundle])%list;
     closed := closed p |}.

Definition finish (c : positive) (p : Process) : Process :=
  {| tracker := fst (build_finally (tracker p));
     in_flight := delete c (in_flight p);
     registered := registered p;
     closed := (closed p ++ snd (build_finally (tracker p)))%list |}.

Inductive step : Process -> Process -> Prop :=
| step_enter (p : Process) (c : positive) :
    in_flight p !! c = None -> step p (enter c p)
| step_register (p : Process) (c : positive) (bundle : RollupBuild) :
    in_flight p !! c = Some false -> step p (register c bundle p)
| step_finish (p : Process) (c : positive) (pushed : bool) :
    in_flight p !! c = Some pushed -> step p (finish c p).

(** The states the process can be in. *)
Definition reachable (p : Process) : Prop := rtc step process_loaded p.

(** ** Inputs and environments of the examples *)

(** The raw options [{ base: '' }]. *)
Definition raw_empty_base : Raw.BuildOptions :=
  {| Raw.base := Some EmptyString; Raw.outDir := None; Raw.assetsDir := None;
     Raw.assetsInlineLimit := None; Raw.cssCodeSplit := None;
     Raw.sourcemap := None; Raw.minify := None; Raw.terserOptions := None;
     Raw.rollupOptions := None; Raw.write := None; Raw.manifest := None;
     Raw.lib := None |}.

(** [{ entry: 'src/index.js', name: n, formats: fs }] *)
Definition lib_spec (n : option string) (fs : option (list LibraryFormats)) : LibraryOptions :=
  {| entry := "src/index.js"; name := n; formats := fs |}.

(** An unresolved import of [source], reported for [importer]. *)
Definition unresolved_import (src : string) (imp : option string) : RollupWarning :=
  {| code := Some "UNRESOLVED_IMPORT";
     message := "could not resolve the import";
     source := Some src; importer := imp; plugin := None;
     loc := None; frame := None |}.

(** The text [{"name":"n"}]. *)
Definition manifest_text (n : string) : string :=
  "{" +:+ dquote +:+ "name" +:+ dquote +:+ ":" +:+ dquote +:+ n +:+ dquote +:+ "}".

(** A style of chalk on a terminal with colours, for the texts of the
    examples (one line, no escape code inside). *)
Definition ansi (open close : string) (v : value) : string :=
  let esc := String (ascii_of_nat 27) "[" in
  let text :=
    match v with
    | VString s => s
    | VUndefined => "undefined"
    | VNull => "null"
    | VBool true => "true"
    | VBool false => "false"
    | VNumber n => pretty n
    | VArray _ | VObject _ | VFunction _ => "[object Object]"
    end in
  esc +:+ open +:+ "m" +:+ text +:+ esc +:+ close +:+ "m".

(** An environment: some built-in modules of Node, a package whose
    manifest [{"name":"n"}] is found from every importer, a parser for
    that text and for [{}], and chalk with colours. *)
Definition example_platform (n : string) : Platform :=
  {| isBuiltin := fun i => array_includes ["fs"; "path"; "http"; "crypto"; "os"] i;
     lookupFile := fun _ names =>
       if array_includes names "package.json" then Some (manifest_text n) else None;
     JSON_parse := fun text =>
       if String.eqb text (manifest_text n) then Some (VObject {["name" := VString n]})
       else if String.eqb text "{}" then Some (VObject ∅)
       else None;
     chalk_yellow := ansi "33" "39";
     chalk_gray := ansi "90" "39" |}.

(** Raw options with a base and a minify only. *)
Definition raw_with (b : option string) (m : option MinifyOption) : Raw.BuildOptions :=
  {| Raw.base := b; Raw.outDir := None; Raw.assetsDir := None;
     Raw.assetsInlineLimit := None; Raw.cssCodeSplit := None;
     Raw.sourcemap := None; Raw.minify := m; Raw.terserOptions := None;
     Raw.rollupOptions := None; Raw.write := None; Raw.manifest := None;
     Raw.lib := None |}.

(** Raw options for a library, with an output override. *)
Definition raw_library (l : LibraryOptions) (o : Outputs) : Raw.BuildOptions :=
  {| Raw.base := None; Raw.outDir := None; Raw.assetsDir := None;
     Raw.assetsInlineLimit := None; Raw.cssCodeSplit := None;
     Raw.sourcemap := None; Raw.minify := None; Raw.terserOptions := None;
     Raw.rollupOptions :=
       Some {| input := None; plugins := None; output := o;
               onwarn := None; other_options := ∅ |};
     Raw.write := None; Raw.manifest := None;
     Raw.lib := Some (Some l) |}.

(** The configuration resolved from raw options, in [/project]. *)
Definition example_config (raw : option Raw.BuildOptions) : ResolvedConfig :=
  {| root := "/project"; build := resolveBuildOptions raw; logLevel := None |}.

(** A runtime for the examples: the conversion of strings and of
    [undefined], and paths joined with a slash. *)
Definition example_runtime : Runtime :=
  {| ToString := fun v =>
       match v with
       | VString s => s
       | VUndefined => "undefined"
       | _ => "[object Object]"
       end;
     path_resolve := fun dir p => dir +:+ "/" +:+ p;
     path_posix_join := fun a b => a +:+ "/" +:+ b |}.

(** Two calls of [build] that overlap: the first has registered its
    bundle and has run its [finally] block, the second is still in
    flight. *)
Definition one_of_two_finished : Process :=
  finish 1 (register 1 10 (enter 2 (enter 1 process_loaded))).

(** The same, after the second call has registered a bundle and has run
    its [finally] block too. *)
Definition both_finished : Process :=
  finish 2 (register 2 20 one_of_two_finished).

(** An environment in which the manifest found from every importer is
    [text], which parses to [parsed] ([None]: it is not JSON). *)
Definition manifest_platform (text : option string) (parsed : option value) : Platform :=
  {| isBuiltin := fun i => array_includes ["fs"; "path"; "http"; "crypto"; "os"] i;
     lookupFile := fun _ names =>
       if array_includes names "package.json" then text else None;
     JSON_parse := fun t =>
       if bool_decide (Some t = text) then parsed
       else if String.eqb t "{}" then Some (VObject ∅)
       else None;
     chalk_yellow := ansi "33" "39";
     chalk_gray := ansi "90" "39" |}.

(** * Properties *)

(** ** Strings *)

Lemma replace_final_non_slash_appends (s : string) :
  s <> EmptyString -> ends_with s "/" = false ->
  replace_final_non_slash s = s +:+ "/".
Proof.
  induction s as [|c s IH]; intros Hne Hend; [congruence|].
  destruct s as [|d s].
  - simpl in *. rewrite Hend. reflexivity.
  - change (String c (replace_final_non_slash (String d s)) = String c (String d s +:+ "/")).
    f_equal. apply IH; [discriminate|exact Hend].
Qed.

Lemma replace_final_non_slash_keeps (s : string) :
  ends_with s "/" = true -> replace_final_non_slash s = s.
Proof.
  induction s as [|c s IH]; intros Hend; [reflexivity|].
  destruct s as [|d s].
  - simpl in *. rewrite Hend. reflexivity.
  - change (String c (replace_final_non_slash (String d s)) = String c (String d s)).
    f_equal. apply IH. exact Hend.
Qed.

Lemma ends_with_app_slash (s : string) : ends_with (s +:+ "/") "/" = true.
Proof.
  induction s as [|c s IH]; [reflexivity|].
  destruct s as [|d s]; [reflexivity|]. exact IH.
Qed.

Lemma replace_final_non_slash_idempotent (s : string) :
  replace_final_non_slash (replace_final_non_slash s) = replace_final_non_slash s.
Proof.
  destruct s as [|c s]; [reflexivity|].
  destruct (ends_with (String c s) "/") eqn:Hend.
  - rewrite (replace_final_non_slash_keeps _ Hend).
    apply replace_final_non_slash_keeps, Hend.
  - rewrite (replace_final_non_slash_appends (String c s)) by (discriminate || exact Hend).
    apply replace_final_non_slash_keeps, ends_with_app_slash.
Qed.

(** ** Build options *)

Lemma resolveBuildOptions_base (raw : option Raw.BuildOptions) :
  base (resolveBuildOptions raw) =
  replace_final_non_slash (base (spread defaults raw)).
Proof. unfold resolveBuildOptions. case_decide; reflexivity. Qed.

Lemma resolveBuildOptions_minify (raw : option Raw.BuildOptions) :
  minify (resolveBuildOptions raw) =
  if decide (minify (spread defaults raw) = MinifyString "false")
  then MinifyBool false
  else minify (spread defaults raw).
Proof. unfold resolveBuildOptions. simpl. case_decide; reflexivity. Qed.

(** A raw base that is not empty and does not end in a slash comes out
    with one slash appended, the characters before it unchanged. *)
Lemma resolveBuildOptions_base_appends (raw : Raw.BuildOptions) (b : string) :
  Raw.base raw = Some b -> b <> EmptyString -> ends_with b "/" = false ->
  base (resolveBuildOptions (Some raw)) = b +:+ "/".
Proof.
  intros Hb Hne Hend. rewrite resolveBuildOptions_base. simpl. rewrite Hb. simpl.
  apply replace_final_non_slash_appends; assumption.
Qed.

(** A raw base that ends in a slash is returned unchanged. *)
Lemma resolveBuildOptions_base_keeps (raw : Raw.BuildOptions) (b : string) :
  Raw.base raw = Some b -> ends_with b "/" = true ->
  base (resolveBuildOptions (Some raw)) = b.
Proof.
  intros Hb Hend. rewrite resolveBuildOptions_base. simpl. rewrite Hb. simpl.
  apply replace_final_non_slash_keeps; assumption.
Qed.

(** Every resolved base that is not empty ends in a slash. *)
Lemma resolveBuildOptions_base_ends_with_slash (raw : option Raw.BuildOptions) :
  base (resolveBuildOptions raw) <> EmptyString ->
  ends_with (base (resolveBuildOptions raw)) "/" = true.
Proof.
  rewrite resolveBuildOptions_base.
  set (b := base (spread defaults raw)). intros Hne.
  destruct (ends_with b "/") eqn:Hend.
  - rewrite (replace_final_non_slash_keeps _ Hend). exact Hend.
  - destruct b as [|c b]; [contradiction Hne; reflexivity|].
    rewrite replace_final_non_slash_appends by (discriminate || exact Hend).
    apply ends_with_app_slash.
Qed.

(** C3: for a raw base string that does not end in a path separator the
    resolved base should end in exactly one separator, the original last
    character kept.  The empty base does not end in a separator, and
    [resolveBuildOptions] returns it empty: the pattern needs one
    character to match, so nothing is appended and the resolved base
    does not end in a separator. *)
Theorem resolveBuildOptions_empty_base_stays_empty :
  Raw.base raw_empty_base = Some EmptyString /\
  ends_with EmptyString "/" = false /\
  base (resolveBuildOptions (Some raw_empty_base)) = EmptyString /\
  ends_with (base (resolveBuildOptions (Some raw_empty_base))) "/" = false.
Proof. repeat split. Qed.

(** C8: when the raw [minify] is the string ['false'], the resolved
    [minify] is the boolean [false]. *)
Theorem resolveBuildOptions_minify_false_string (raw : Raw.BuildOptions) :
  Raw.minify raw = Some (MinifyString "false") ->
  minify (resolveBuildOptions (Some raw)) = MinifyBool false.
Proof.
  intros Hm. rewrite resolveBuildOptions_minify.
  unfold spread. rewrite Hm. reflexivity.
Qed.

Lemma resolveBuildOptions_minify_false_string_witness :
  let raw :=
    {| Raw.base := None; Raw.outDir := None; Raw.assetsDir := None;
       Raw.assetsInlineLimit := None; Raw.cssCodeSplit := None;
       Raw.sourcemap := None; Raw.minify := Some (MinifyString "false");
       Raw.terserOptions := None; Raw.rollupOptions := None;
       Raw.write := None; Raw.manifest := None; Raw.lib := None |} in
  Raw.minify raw = Some (MinifyString "false") /\
  minify (resolveBuildOptions (Some raw)) = MinifyBool false.
Proof.
  intros raw. split; [reflexivity|].
  apply (resolveBuildOptions_minify_false_string raw). reflexivity.
Defined.

(** The resolved [minify] is never the string ['false'], whatever the
    raw options are. *)
Lemma resolveBuildOptions_minify_never_false_string (raw : option Raw.BuildOptions) :
  minify (resolveBuildOptions raw) <> MinifyString "false".
Proof.
  rewrite resolveBuildOptions_minify. case_decide; [discriminate|assumption].
Qed.

(** C10: [resolveBuildOptions] is idempotent: resolving its own result
    gives that result again. *)
Theorem resolveBuildOptions_idempotent (raw : option Raw.BuildOptions) :
  resolveBuildOptions (Some (as_raw (resolveBuildOptions raw))) =
  resolveBuildOptions raw.
Proof.
  unfold resolveBuildOptions at 1.
  pose proof (resolveBuildOptions_minify_never_false_string raw) as Hnever.
  pose proof (resolveBuildOptions_base raw) as Hbase.
  destruct (resolveBuildOptions raw) as [b od ad lim css sm mi topt ropt wr man li].
  simpl in *. case_decide; [contradiction|].
  unfold set_base. simpl. f_equal.
  rewrite Hbase. apply replace_final_non_slash_idempotent.
Qed.

(** ** The plugin list *)

Lemma contains_terser_user (l : list ExternalPlugin) :
  contains_terser (map User l) = false.
Proof. induction l as [|p l IH]; [reflexivity|exact IH]. Qed.

(** The minifier plugin is in the list exactly when the test of
    [resolveBuildPlugins] on [minify] passes. *)
Lemma resolveBuildPlugins_terser (config : ResolvedConfig) :
  contains_terser (resolveBuildPlugins config) =
  truthy_minify (minify (build config)) &&
  negb (bool_decide (minify (build config) = MinifyString "esbuild")).
Proof.
  unfold resolveBuildPlugins, contains_terser.
  rewrite !existsb_app. fold (contains_terser (map User (default [] (plugins (rollupOptions (build config)))))).
  rewrite contains_terser_user.
  destruct (truthy_minify _ && negb _); simpl.
  - reflexivity.
  - destruct (manifest (build config)), (negb _ || _); reflexivity.
Qed.

(** C7: for a resolved configuration, whose [minify] is of its declared
    type, the plugin list holds the minifier plugin if and only if
    [minify] is not [false] and is not ['esbuild']. *)
Theorem resolveBuildPlugins_terser_iff (config : ResolvedConfig) :
  minify_declared (minify (build config)) ->
  contains_terser (resolveBuildPlugins config) = true <->
  minify (build config) <> MinifyBool false /\
  minify (build config) <> MinifyString "esbuild".
Proof.
  intros Hdecl. rewrite resolveBuildPlugins_terser.
  rewrite andb_true_iff, negb_true_iff, bool_decide_eq_false.
  destruct (minify (build config)) as [[|]|s]; simpl in *.
  - split; [intros _; split; discriminate|tauto].
  - split; [intros [? _]; discriminate|intros [? _]; congruence].
  - destruct Hdecl as [-> | ->]; simpl.
    + split; [intros _; split; discriminate|intros _; split; [reflexivity|discriminate]].
    + split; [intros [_ ?]; congruence|intros [_ ?]; congruence].
Qed.

Lemma resolveBuildPlugins_terser_iff_witness :
  let config :=
    {| root := "/project"; build := resolveBuildOptions None; logLevel := None |} in
  minify_declared (minify (build config)) /\
  (contains_terser (resolveBuildPlugins config) = true <->
   minify (build config) <> MinifyBool false /\
   minify (build config) <> MinifyString "esbuild").
Proof.
  intros config.
  assert (Hdecl : minify_declared (minify (build config))) by (left; reflexivity).
  split; [exact Hdecl|].
  exact (resolveBuildPlugins_terser_iff config Hdecl).
Defined.

(** ** Output targets *)

Section OutputProperties.
Context `{Platform}.

Lemma name_missing_absent (l : LibraryOptions) :
  name l = None \/ name l = Some EmptyString -> name_missing l = true.
Proof. unfold name_missing. intros [-> | ->]; reflexivity. Qed.

Lemma name_missing_present (l : LibraryOptions) (n : string) :
  name l = Some n -> n <> EmptyString -> name_missing l = false.
Proof.
  unfold name_missing. intros -> Hn. destruct n; [congruence|reflexivity].
Qed.

(** The validation is the only place where [resolveBuildOutputs] throws. *)
Lemma resolveBuildOutputs_throws (outputs : Outputs) (l : LibraryOptions) :
  throws (resolveBuildOutputs outputs (Some l)) =
  (formats_include (requested_formats l) umd ||
   formats_include (requested_formats l) iife) && name_missing l.
Proof.
  unfold resolveBuildOutputs.
  destruct ((_ || _) && _); [reflexivity|].
  destruct outputs; [reflexivity..|]. destruct (formats l); reflexivity.
Qed.

(** C2, amended: a library spec whose requested formats hold ['umd'] or
    ['iife'] and whose name is absent or the empty string fails with the
    configuration error; the same spec with a name that is not empty
    passes the validation. *)
Theorem resolveBuildOutputs_name_required
    (outputs : Outputs) (l : LibraryOptions) (n : string) :
  formats_include (requested_formats l) umd ||
  formats_include (requested_formats l) iife = true ->
  name l = None \/ name l = Some EmptyString ->
  n <> EmptyString ->
  resolveBuildOutputs outputs (Some l) = throw (Error name_required_message) /\
  throws (resolveBuildOutputs outputs (Some (with_name (Some n) l))) = false.
Proof.
  intros Hfmt Hname Hn. split.
  - unfold resolveBuildOutputs.
    rewrite Hfmt, (name_missing_absent l Hname). reflexivity.
  - rewrite resolveBuildOutputs_throws.
    rewrite (name_missing_present (with_name (Some n) l) n eq_refl Hn).
    apply andb_false_r.
Qed.

Lemma with_format_lookup (o : OutputOptions) (f : LibraryFormats) :
  with_format o f !! "format" = Some (VString (format_string f)).
Proof. unfold with_format. apply lookup_insert_eq. Qed.

Lemma with_format_lookup_other (o : OutputOptions) (f : LibraryFormats) (k : string) :
  k <> "format" -> with_format o f !! k = o !! k.
Proof. intros Hk. unfold with_format. apply lookup_insert_ne. congruence. Qed.

Lemma format_string_inj : Inj (=) (=) format_string.
Proof. intros [] [] Heq; (reflexivity || discriminate Heq). Qed.

(** C4, amended: for a library spec with a name that is not empty, and
    an override that is absent or a single target, the result is the list
    of one target per requested format, in order, each the override (the
    empty object when absent) with only [format] replaced; distinct
    requested formats give targets with distinct formats. *)
Theorem resolveBuildOutputs_fan_out
    (outputs : Outputs) (l : LibraryOptions) (n : string) (o : OutputOptions) :
  name l = Some n -> n <> EmptyString ->
  (outputs = OutUndefined /\ o = ∅) \/ outputs = OutSingle o ->
  let targets := with_format o <$> requested_formats l in
  resolveBuildOutputs outputs (Some l) = ret (OutArray targets) /\
  length targets = length (requested_formats l) /\
  (forall (i : nat) (f : LibraryFormats),
      requested_formats l !! i = Some f ->
      exists t : OutputOptions,
        targets !! i = Some t /\
        t !! "format" = Some (VString (format_string f)) /\
        forall k : string, k <> "format" -> t !! k = o !! k) /\
  (NoDup (requested_formats l) -> NoDup ((fun t : OutputOptions => t !! "format") <$> targets)).
Proof.
  intros Hname Hn Hout targets. repeat split.
  - unfold resolveBuildOutputs.
    rewrite (name_missing_present l n Hname Hn), andb_false_r.
    destruct Hout as [[-> ->] | ->]; reflexivity.
  - apply length_fmap.
  - intros i f Hi. exists (with_format o f). split; [|split].
    + unfold targets. rewrite list_lookup_fmap, Hi. reflexivity.
    + apply with_format_lookup.
    + intros k Hk. apply with_format_lookup_other, Hk.
  - intros Hnd. unfold targets. rewrite <- list_fmap_compose.
    apply NoDup_fmap_2; [|exact Hnd].
    intros f g Heq. simpl in Heq. rewrite !with_format_lookup in Heq.
    apply format_string_inj. congruence.
Qed.

(** C9: with [formats] given as the empty list, the validation passes
    whatever the name is, and without an override the result is the empty
    list of targets, for which [generate] is not called. *)
Theorem resolveBuildOutputs_empty_formats (outputs : Outputs) (l : LibraryOptions) :
  formats l = Some [] ->
  requested_formats l = [] /\
  throws (resolveBuildOutputs outputs (Some l)) = false /\
  exists targets : Outputs,
    resolveBuildOutputs OutUndefined (Some l) = ret targets /\
    targets = OutArray [] /\
    generate_calls targets = [].
Proof.
  intros Hf.
  assert (Hreq : requested_formats l = []) by (unfold requested_formats; rewrite Hf; reflexivity).
  split; [exact Hreq|]. split.
  - rewrite resolveBuildOutputs_throws, Hreq. reflexivity.
  - exists (OutArray []). split; [|split; reflexivity].
    unfold resolveBuildOutputs. rewrite Hreq. reflexivity.
Qed.

End OutputProperties.

Lemma resolveBuildOutputs_name_required_witness :
  let l := lib_spec None None in
  (formats_include (requested_formats l) umd ||
   formats_include (requested_formats l) iife = true) /\
  (name l = None \/ name l = Some EmptyString) /\
  "MyLib" <> EmptyString /\
  @resolveBuildOutputs (example_platform "dep") OutUndefined (Some l) =
    throw (Error name_required_message) /\
  throws (@resolveBuildOutputs (example_platform "dep") OutUndefined
            (Some (with_name (Some "MyLib") l))) = false.
Proof.
  intros l.
  assert (Hfmt : formats_include (requested_formats l) umd ||
                 formats_include (requested_formats l) iife = true) by reflexivity.
  assert (Hname : name l = None \/ name l = Some EmptyString) by (left; reflexivity).
  assert (Hn : "MyLib" <> EmptyString) by discriminate.
  split; [exact Hfmt|]. split; [exact Hname|]. split; [exact Hn|].
  exact (@resolveBuildOutputs_name_required (example_platform "dep")
           OutUndefined l "MyLib" Hfmt Hname Hn).
Defined.

(** C2 as stated fails: with ['umd'] requested and the name set to the
    empty string, the configuration error is thrown. *)
Lemma resolveBuildOutputs_empty_name_rejected :
  let l := with_name (Some EmptyString) (lib_spec None (Some [umd])) in
  formats_include (requested_formats l) umd = true /\
  name l = Some EmptyString /\
  @resolveBuildOutputs (example_platform "dep") OutUndefined (Some l) =
    throw (Error name_required_message) /\
  throws (@resolveBuildOutputs (example_platform "dep") OutUndefined (Some l)) = true.
Proof. repeat split. Qed.

Lemma resolveBuildOutputs_fan_out_witness :
  let l := lib_spec (Some "MyLib") (Some [es; cjs; umd]) in
  let targets := with_format ∅ <$> requested_formats l in
  name l = Some "MyLib" /\ "MyLib" <> EmptyString /\
  @resolveBuildOutputs (example_platform "dep") OutUndefined (Some l) =
    ret (OutArray targets) /\
  length targets = 3.
Proof.
  intros l targets.
  assert (Hn : "MyLib" <> EmptyString) by discriminate.
  split; [reflexivity|]. split; [exact Hn|].
  pose proof (@resolveBuildOutputs_fan_out (example_platform "dep")
                OutUndefined l "MyLib" ∅ eq_refl Hn
                (or_introl (conj eq_refl eq_refl))) as [Hres [Hlen _]].
  split; [exact Hres|exact Hlen].
Defined.

(** C4 as stated fails: three distinct formats are requested and a name
    is set, to the empty string; no target is returned, the
    configuration error is thrown. *)
Lemma resolveBuildOutputs_fan_out_empty_name :
  let l := lib_spec (Some EmptyString) (Some [es; cjs; umd]) in
  name l = Some EmptyString /\
  requested_formats l = [es; cjs; umd] /\
  NoDup (requested_formats l) /\
  @resolveBuildOutputs (example_platform "dep") OutUndefined (Some l) =
    throw (Error name_required_message) /\
  @resolveBuildOutputs (example_platform "dep") OutUndefined (Some l) <>
    ret (OutArray (with_format ∅ <$> requested_formats l)).
Proof.
  intros l. split; [reflexivity|]. split; [reflexivity|]. split.
  - apply (bool_decide_unpack _). reflexivity.
  - split; [reflexivity|discriminate].
Qed.

Lemma resolveBuildOutputs_empty_formats_witness :
  let l := lib_spec None (Some []) in
  formats l = Some [] /\
  throws (@resolveBuildOutputs (example_platform "dep") (OutSingle ∅) (Some l)) = false /\
  @resolveBuildOutputs (example_platform "dep") OutUndefined (Some l) = ret (OutArray []).
Proof.
  intros l.
  pose proof (@resolveBuildOutputs_empty_formats (example_platform "dep")
                (OutSingle ∅) l eq_refl) as [_ [Hthrows [targets [Hres [-> _]]]]].
  split; [reflexivity|]. split; [exact Hthrows|exact Hres].
Defined.

(** ** Warnings *)

Lemma prefix_app (sub a b : string) :
  String.prefix sub a = true -> String.prefix sub (a +:+ b) = true.
Proof.
  revert a. induction sub as [|c sub IH]; intros a Hp.
  { destruct (a +:+ b); reflexivity. }
  destruct a as [|d a]; [discriminate|].
  simpl in *. destruct (ascii_dec c d); [apply IH, Hp|discriminate].
Qed.

Lemma includes_app_l (a b sub : string) :
  includes a sub = true -> includes (a +:+ b) sub = true.
Proof.
  induction a as [|c a IH]; intros Hi.
  - simpl in Hi. rewrite orb_false_r in Hi.
    destruct sub; [|discriminate]. destruct b; reflexivity.
  - change (String.prefix sub (String c a) || includes a sub = true) in Hi.
    change (String.prefix sub (String c a +:+ b) || includes (a +:+ b) sub = true).
    apply orb_true_iff in Hi as [Hp | Hi].
    + rewrite (prefix_app _ _ b Hp). reflexivity.
    + rewrite (IH Hi). apply orb_true_r.
Qed.

Lemma includes_app_r (a b sub : string) :
  includes b sub = true -> includes (a +:+ b) sub = true.
Proof.
  intros Hi. induction a as [|c a IH]; [exact Hi|].
  change (String.prefix sub (String c (a +:+ b)) || includes (a +:+ b) sub = true).
  rewrite IH. apply orb_true_r.
Qed.

Section WarningProperties.
Context `{Platform}.

(** The message for a built-in module holds what chalk returns for the
    module id. *)
Lemma builtin_message_mentions (dep : value) (i : string) (imp : option string) (sub : string) :
  includes (chalk_yellow (VString i)) sub = true ->
  includes (builtin_message dep i imp) sub = true.
Proof.
  intros Hi. unfold builtin_message.
  apply includes_app_r, includes_app_r, includes_app_l. exact Hi.
Qed.

(** C1: an unresolved import of ["fs"], a built-in module, without an
    importer, ends in a thrown error whose message holds ["fs"], and no
    handler is called; this for every allow-list, the empty one among
    them.  That chalk's styled text holds the text it styles is what is
    assumed of chalk. *)
Theorem onRollupWarning_unresolved_fs
    (w : RollupWarning) (warn : Handler) (allow : option (list string))
    (userOnWarn : option Handler) :
  code w = Some "UNRESOLVED_IMPORT" ->
  source w = Some "fs" ->
  importer w = None ->
  isBuiltin "fs" = true ->
  includes (chalk_yellow (VString "fs")) "fs" = true ->
  exists msg : string,
    onRollupWarning w warn allow userOnWarn = throw (Error msg) /\
    includes msg "fs" = true.
Proof.
  intros Hcode Hsrc Himp Hbuiltin Hchalk.
  exists (builtin_message VUndefined "fs" None). split.
  - unfold onRollupWarning. rewrite Hcode, Hsrc, Himp. simpl.
    rewrite Hbuiltin. reflexivity.
  - apply builtin_message_mentions, Hchalk.
Qed.

(** C5, amended: an unresolved import of a built-in module, from an
    importer whose path is not empty and whose nearest manifest parses to
    an object with a string [name] that is not empty and is in the
    allow-list, returns without a throw and without a call. *)
Theorem onRollupWarning_allowed_importer
    (w : RollupWarning) (warn : Handler) (allow : list string)
    (userOnWarn : option Handler)
    (i imp text n : string) (props : gmap string value) :
  code w = Some "UNRESOLVED_IMPORT" ->
  source w = Some i -> i <> EmptyString -> isBuiltin i = true ->
  importer w = Some imp -> imp <> EmptyString ->
  lookupFile imp ["package.json"] = Some text -> text <> EmptyString ->
  JSON_parse text = Some (VObject props) ->
  props !! "name" = Some (VString n) -> n <> EmptyString ->
  In n allow ->
  onRollupWarning w warn (Some allow) userOnWarn = ret tt.
Proof.
  intros Hcode Hsrc Hi Hbuiltin Himp Himpne Hfile Htext Hparse Hname Hn Hin.
  assert (Hallow : array_includes allow n = true).
  { unfold array_includes. apply existsb_exists. exists n.
    split; [exact Hin|apply String.eqb_refl]. }
  unfold onRollupWarning. rewrite Hcode, Hsrc, Himp. simpl.
  destruct i as [|c i]; [congruence|]. simpl. rewrite Hbuiltin.
  destruct imp as [|d imp]; [congruence|]. simpl.
  rewrite Hfile. destruct text as [|e text]; [congruence|]. simpl.
  unfold parse. rewrite Hparse. simpl. rewrite Hname. simpl.
  destruct n as [|a n]; [congruence|]. simpl.
  rewrite Hallow. reflexivity.
Qed.

(** C6: a warning whose code is [CIRCULAR_DEPENDENCY] returns without a
    throw and without a call, whatever its other fields, the allow-list
    and the handlers are. *)
Theorem onRollupWarning_circular_dependency
    (w : RollupWarning) (warn : Handler) (allow : option (list string))
    (userOnWarn : option Handler) :
  code w = Some "CIRCULAR_DEPENDENCY" ->
  onRollupWarning w warn allow userOnWarn = ret tt.
Proof.
  intros Hcode. unfold onRollupWarning. rewrite Hcode. simpl.
  destruct (_ && _); reflexivity.
Qed.

End WarningProperties.

Lemma onRollupWarning_unresolved_fs_witness :
  let w := unresolved_import "fs" None in
  code w = Some "UNRESOLVED_IMPORT" /\ source w = Some "fs" /\ importer w = None /\
  @isBuiltin (example_platform "dep") "fs" = true /\
  includes (@chalk_yellow (example_platform "dep") (VString "fs")) "fs" = true /\
  exists msg : string,
    @onRollupWarning (example_platform "dep") w 1%positive (Some []) None =
      throw (Error msg) /\
    includes msg "fs" = true.
Proof.
  intros w.
  assert (Hb : @isBuiltin (example_platform "dep") "fs" = true) by reflexivity.
  assert (Hc : includes (@chalk_yellow (example_platform "dep") (VString "fs")) "fs" = true)
    by reflexivity.
  repeat (split; [reflexivity|]).
  exact (@onRollupWarning_unresolved_fs (example_platform "dep")
           w 1%positive (Some []) None eq_refl eq_refl eq_refl Hb Hc).
Defined.

Lemma onRollupWarning_allowed_importer_witness :
  let w := unresolved_import "fs" (Some "/project/node_modules/dep/index.js") in
  In "dep" ["dep"; "other"] /\
  @onRollupWarning (example_platform "dep") w 1%positive (Some ["dep"; "other"]) None =
    ret tt.
Proof.
  intros w.
  assert (Hin : In "dep" ["dep"; "other"]) by (left; reflexivity).
  split; [exact Hin|].
  apply (@onRollupWarning_allowed_importer (example_platform "dep")
           w 1%positive ["dep"; "other"] None
           "fs" "/project/node_modules/dep/index.js" (manifest_text "dep") "dep"
           {["name" := VString "dep"]});
    try reflexivity; try discriminate; exact Hin.
Defined.

(** C5 as stated fails: the manifest of the importer has the name [""],
    the allow-list holds that name, and the error is thrown. *)
Lemma onRollupWarning_empty_name_not_allowed :
  let w := unresolved_import "fs" (Some "/project/node_modules/dep/index.js") in
  let P := example_platform EmptyString in
  @isBuiltin P "fs" = true /\
  @lookupFile P "/project/node_modules/dep/index.js" ["package.json"] =
    Some (manifest_text EmptyString) /\
  @JSON_parse P (manifest_text EmptyString) =
    Some (VObject {["name" := VString EmptyString]}) /\
  In EmptyString [EmptyString] /\
  throws (@onRollupWarning P w 1%positive (Some [EmptyString]) None) = true /\
  calls (@onRollupWarning P w 1%positive (Some [EmptyString]) None) = [].
Proof.
  intros w P. repeat split; try reflexivity. left; reflexivity.
Qed.

Lemma onRollupWarning_circular_dependency_witness :
  let w :=
    {| code := Some "CIRCULAR_DEPENDENCY";
       message := "Circular dependency: a.js -> b.js -> a.js";
       source := Some "fs"; importer := Some "a.js";
       plugin := Some "rollup-plugin-dynamic-import-variables";
       loc := Some ("a.js", 1%Z, 0%Z); frame := None |} in
  code w = Some "CIRCULAR_DEPENDENCY" /\
  @onRollupWarning (example_platform "dep") w 1%positive None (Some 2%positive) = ret tt.
Proof.
  intros w. split; [reflexivity|].
  exact (@onRollupWarning_circular_dependency (example_platform "dep")
           w 1%positive None (Some 2%positive) eq_refl).
Defined.

(** * Further properties *)

(** ** Build options: the fields, the base, the minifier *)

Lemma replace_final_non_slash_empty_iff (s : string) :
  replace_final_non_slash s = EmptyString <-> s = EmptyString.
Proof.
  split; [|intros ->; reflexivity].
  destruct s as [|c [|d s]]; [reflexivity| |discriminate].
  simpl. destruct (Ascii.eqb c "/"); discriminate.
Qed.

(** X1: apart from [base] and [minify], every field of the result is the
    field of the raw options when it is present, and the default when it
    is absent. *)
Theorem resolveBuildOptions_other_fields (raw : Raw.BuildOptions) :
  let resolved := resolveBuildOptions (Some raw) in
  outDir resolved = default "dist" (Raw.outDir raw) /\
  assetsDir resolved = default "assets" (Raw.assetsDir raw) /\
  assetsInlineLimit resolved = default 4096%Z (Raw.assetsInlineLimit raw) /\
  cssCodeSplit resolved = default true (Raw.cssCodeSplit raw) /\
  sourcemap resolved = default (SourcemapBool false) (Raw.sourcemap raw) /\
  terserOptions resolved = default ∅ (Raw.terserOptions raw) /\
  rollupOptions resolved = default no_rollup_options (Raw.rollupOptions raw) /\
  write resolved = default true (Raw.write raw) /\
  manifest resolved = default false (Raw.manifest raw) /\
  lib resolved = default None (Raw.lib raw).
Proof.
  unfold resolveBuildOptions. simpl. case_decide; simpl; repeat split.
Qed.

(** X2: the resolved base is empty exactly when the raw options give the
    empty string as base; an absent base gives ["/"]. *)
Theorem resolveBuildOptions_base_empty_iff (raw : option Raw.BuildOptions) :
  (base (resolveBuildOptions raw) = EmptyString <->
   exists r : Raw.BuildOptions, raw = Some r /\ Raw.base r = Some EmptyString) /\
  (raw = None \/ (exists r : Raw.BuildOptions, raw = Some r /\ Raw.base r = None) ->
   base (resolveBuildOptions raw) = "/").
Proof.
  rewrite resolveBuildOptions_base, replace_final_non_slash_empty_iff. split.
  - destruct raw as [r|]; simpl.
    + destruct (Raw.base r) as [b|] eqn:Hb; simpl.
      * split; [intros ->; eauto|]. intros (r' & [= <-] & Hb'). congruence.
      * split; [discriminate|]. intros (r' & [= <-] & Hb'). congruence.
    + split; [discriminate|]. intros (r' & [=] & _).
  - intros [-> | (r & -> & Hb)]; simpl; [reflexivity|]. rewrite Hb. reflexivity.
Qed.

(** X3: a raw base that is not empty comes out ending in a slash: as it
    is when it ends in one (also when it ends in several), with one slash
    appended otherwise. *)
Theorem resolveBuildOptions_base_normal_form (raw : Raw.BuildOptions) (b : string) :
  Raw.base raw = Some b -> b <> EmptyString ->
  base (resolveBuildOptions (Some raw)) =
    (if ends_with b "/" then b else b +:+ "/") /\
  ends_with (base (resolveBuildOptions (Some raw))) "/" = true.
Proof.
  intros Hb Hne.
  assert (Heq : base (resolveBuildOptions (Some raw)) =
                if ends_with b "/" then b else b +:+ "/").
  { rewrite resolveBuildOptions_base. simpl. rewrite Hb. simpl.
    destruct (ends_with b "/") eqn:Hend.
    - apply replace_final_non_slash_keeps, Hend.
    - apply replace_final_non_slash_appends; assumption. }
  split; [exact Heq|]. rewrite Heq.
  destruct (ends_with b "/") eqn:Hend; [exact Hend|apply ends_with_app_slash].
Qed.

Lemma resolveBuildOptions_base_normal_form_witness :
  base (resolveBuildOptions (Some (raw_with (Some "/app//") None))) = "/app//" /\
  base (resolveBuildOptions (Some (raw_with (Some "./app") None))) = "./app/".
Proof.
  split.
  - apply (resolveBuildOptions_base_normal_form (raw_with (Some "/app//") None) "/app//");
      [reflexivity|discriminate].
  - apply (resolveBuildOptions_base_normal_form (raw_with (Some "./app") None) "./app");
      [reflexivity|discriminate].
Defined.

(** X4: when the raw [minify] is absent, of its declared type or the
    string ['false'], the resolved [minify] is of the declared type. *)
Theorem resolveBuildOptions_minify_declared (raw : Raw.BuildOptions) :
  match Raw.minify raw with
  | None => True
  | Some m => minify_declared m \/ m = MinifyString "false"
  end ->
  minify_declared (minify (resolveBuildOptions (Some raw))).
Proof.
  intros Hm. rewrite resolveBuildOptions_minify. simpl.
  destruct (Raw.minify raw) as [m|]; simpl.
  - case_decide as Hfalse; [exact I|]. destruct Hm as [Hm | Hm]; [exact Hm|contradiction].
  - left. reflexivity.
Qed.

Lemma resolveBuildOptions_minify_declared_witness :
  minify_declared
    (minify (resolveBuildOptions (Some (raw_with None (Some (MinifyString "false")))))) /\
  minify_declared
    (minify (resolveBuildOptions (Some (raw_with None (Some (MinifyString "esbuild")))))).
Proof.
  split.
  - apply (resolveBuildOptions_minify_declared
             (raw_with None (Some (MinifyString "false")))).
    right. reflexivity.
  - apply (resolveBuildOptions_minify_declared
             (raw_with None (Some (MinifyString "esbuild")))).
    left. right. reflexivity.
Defined.

(** X5: only the string ['false'] is coerced: any other string given as
    [minify] (['true'], ['off'], the empty string) is returned as it is,
    and so is a boolean. *)
Theorem resolveBuildOptions_minify_kept (raw : Raw.BuildOptions) (m : MinifyOption) :
  Raw.minify raw = Some m -> m <> MinifyString "false" ->
  minify (resolveBuildOptions (Some raw)) = m.
Proof.
  intros Hm Hne. rewrite resolveBuildOptions_minify. simpl. rewrite Hm. simpl.
  case_decide; [contradiction|reflexivity].
Qed.

Lemma resolveBuildOptions_minify_kept_witness :
  minify (resolveBuildOptions (Some (raw_with None (Some (MinifyString "true"))))) =
  MinifyString "true".
Proof.
  apply (resolveBuildOptions_minify_kept (raw_with None (Some (MinifyString "true"))));
    [reflexivity|discriminate].
Defined.

(** ** The plugin list: order and optional plugins *)

Lemma in_map_User (q : Plugin) (l : list ExternalPlugin) :
  In q (map User l) -> exists p : ExternalPlugin, q = User p.
Proof. intros Hin. apply in_map_iff in Hin as (p & <- & _). eauto. Qed.

(** X6: the list starts with the user's plugins, in their order, followed
    by the five fixed plugins; what follows is taken, in this order, from
    the minifier plugin built with [terserOptions], the manifest plugin
    and the reporter plugin. *)
Theorem resolveBuildPlugins_pipeline (config : ResolvedConfig) :
  exists optional : list Plugin,
    resolveBuildPlugins config =
      (map User (default [] (plugins (rollupOptions (build config)))) ++
       [ commonjsPlugin ["node_modules"] [".js"; ".cjs"];
         buildHtmlPlugin;
         buildDefinePlugin;
         dynamicImportVars true ["node_modules"];
         buildEsbuildPlugin ] ++
       optional)%list /\
    sublist optional
      [ terserPlugin (terserOptions (build config));
        manifestPlugin;
        buildReporterPlugin ].
Proof.
  unfold resolveBuildPlugins. eexists. split; [reflexivity|].
  destruct (truthy_minify _ && negb _), (manifest (build config)), (negb _ || _);
    simpl; repeat (first [apply sublist_nil | apply sublist_skip | apply sublist_cons]).
Qed.

(** X7: the manifest plugin is in the list if and only if [manifest] is
    enabled. *)
Theorem resolveBuildPlugins_manifest_iff (config : ResolvedConfig) :
  In manifestPlugin (resolveBuildPlugins config) <-> manifest (build config) = true.
Proof.
  unfold resolveBuildPlugins. rewrite !in_app_iff. split.
  - intros [Hin | [Hin | [Hin | [Hin | Hin]]]].
    + apply in_map_User in Hin as [p Hp]. discriminate.
    + simpl in Hin. intuition discriminate.
    + destruct (truthy_minify _ && negb _); simpl in Hin; intuition discriminate.
    + destruct (manifest (build config)); [reflexivity|destruct Hin].
    + destruct (negb _ || _); simpl in Hin; intuition discriminate.
  - intros ->. right. right. right. left. left. reflexivity.
Qed.

(** X8: the reporter plugin is in the list if and only if the log level
    is absent, the empty string or ['info']. *)
Theorem resolveBuildPlugins_reporter_iff (config : ResolvedConfig) :
  In buildReporterPlugin (resolveBuildPlugins config) <->
  logLevel config = None \/ logLevel config = Some EmptyString \/
  logLevel config = Some "info".
Proof.
  unfold resolveBuildPlugins. rewrite !in_app_iff. split.
  - intros [Hin | [Hin | [Hin | [Hin | Hin]]]].
    + apply in_map_User in Hin as [p Hp]. discriminate.
    + simpl in Hin. intuition discriminate.
    + destruct (truthy_minify _ && negb _); simpl in Hin; intuition discriminate.
    + destruct (manifest (build config)); simpl in Hin; intuition discriminate.
    + destruct (logLevel config) as [[|c lvl]|] eqn:Hlvl; simpl in Hin; auto.
      right. right. case_bool_decide as Hinfo; [exact Hinfo|destruct Hin].
  - intros Hlvl. do 4 right.
    destruct Hlvl as [-> | [-> | ->]]; left; reflexivity.
Qed.

(** ** Output targets: validation, warning, shape of the result *)

Section MoreOutputProperties.
Context `{Platform}.

Lemma name_missing_iff (l : LibraryOptions) :
  name_missing l = true <-> name l = None \/ name l = Some EmptyString.
Proof.
  unfold name_missing. destruct (name l) as [[|c n]|]; simpl; split; intros Hx;
    auto; try discriminate; destruct Hx; discriminate.
Qed.

(** X9: in library mode [resolveBuildOutputs] throws if and only if the
    requested formats hold ['umd'] or ['iife'] and the name is absent or
    empty, whatever the override is (also an array, for which the formats
    are not used); what is thrown is the configuration error, before any
    warning is logged. *)
Theorem resolveBuildOutputs_throws_iff (outputs : Outputs) (l : LibraryOptions) :
  (throws (resolveBuildOutputs outputs (Some l)) = true <->
   (umd ∈ requested_formats l \/ iife ∈ requested_formats l) /\
   (name l = None \/ name l = Some EmptyString)) /\
  (throws (resolveBuildOutputs outputs (Some l)) = true ->
   resolveBuildOutputs outputs (Some l) = throw (Error name_required_message)).
Proof.
  split.
  - rewrite resolveBuildOutputs_throws, andb_true_iff, orb_true_iff, name_missing_iff.
    unfold formats_include. rewrite !bool_decide_eq_true. reflexivity.
  - rewrite resolveBuildOutputs_throws. intros Hthrows.
    unfold resolveBuildOutputs. rewrite Hthrows. reflexivity.
Qed.

(** X10: the logger is called if and only if, in library mode, the
    override is an array, the spec gives its formats and the validation
    passes; it is then called once, with the text that says the formats
    are ignored. *)
Theorem resolveBuildOutputs_warns_iff (outputs : Outputs) (libOptions : option LibraryOptions) :
  let r := resolveBuildOutputs outputs libOptions in
  (calls r <> [] <->
   exists (l : LibraryOptions) (os : list OutputOptions) (fs : list LibraryFormats),
     libOptions = Some l /\ outputs = OutArray os /\ formats l = Some fs /\
     throws r = false) /\
  (calls r = [] \/
   calls r = [LoggerWarn (chalk_yellow (VString formats_ignored_message))]).
Proof.
  unfold resolveBuildOutputs. destruct libOptions as [l|]; simpl.
  2:{ split; [|left; reflexivity].
      split; [intros Hc; contradiction Hc; reflexivity|].
      intros (l & os & fs & Heq & _). discriminate. }
  destruct ((_ || _) && _) eqn:Hval; simpl.
  { split; [|left; reflexivity].
    split; [intros Hc; contradiction Hc; reflexivity|].
    intros (l' & os & fs & _ & _ & _ & Heq). discriminate. }
  destruct outputs as [|o|os]; simpl.
  - split; [|left; reflexivity].
    split; [intros Hc; contradiction Hc; reflexivity|].
    intros (l' & os & fs & _ & Heq & _). discriminate.
  - split; [|left; reflexivity].
    split; [intros Hc; contradiction Hc; reflexivity|].
    intros (l' & os & fs & _ & Heq & _). discriminate.
  - destruct (formats l) as [fs|] eqn:Hf; simpl.
    + split; [|right; reflexivity].
      split; [|discriminate]. intros _. exists l, os, fs. auto.
    + split; [|left; reflexivity].
      split; [intros Hc; contradiction Hc; reflexivity|].
      intros (l' & os' & fs & Heq & _ & Hf' & _). congruence.
Qed.

(** X11: in library mode a result is always an array: the user's array,
    untouched, when the override is one, and otherwise one target for
    each requested format. *)
Theorem resolveBuildOutputs_library_array
    (outputs : Outputs) (l : LibraryOptions) (cs : list Call) (res : Outputs) :
  resolveBuildOutputs outputs (Some l) = (cs, inr res) ->
  exists os : list OutputOptions,
    res = OutArray os /\
    match outputs with
    | OutArray os' => os = os'
    | _ => length os = length (requested_formats l)
    end.
Proof.
  unfold resolveBuildOutputs. destruct ((_ || _) && _); [discriminate|].
  destruct outputs as [|o|os']; simpl.
  - intros [= <- <-]. eexists. split; [reflexivity|apply length_fmap].
  - intros [= <- <-]. eexists. split; [reflexivity|apply length_fmap].
  - destruct (formats l); intros [= <- <-]; eexists; split; reflexivity.
Qed.

End MoreOutputProperties.

Lemma resolveBuildOutputs_library_array_witness :
  exists os : list OutputOptions,
    OutArray [with_format ∅ es] = OutArray os /\
    length os = length (requested_formats (lib_spec None (Some [es]))).
Proof.
  exact (@resolveBuildOutputs_library_array (example_platform "dep")
           OutUndefined (lib_spec None (Some [es])) [] (OutArray [with_format ∅ es])
           eq_refl).
Defined.

(** ** Warnings: escalation, forwarding, the manifest *)

Lemma prefix_refl (s : string) : String.prefix s s = true.
Proof.
  induction s as [|c s IH]; [reflexivity|].
  simpl. destruct (ascii_dec c c); [exact IH|congruence].
Qed.

Lemma includes_refl (s : string) : includes s s = true.
Proof.
  destruct s as [|c s]; [reflexivity|].
  change (String.prefix (String c s) (String c s) || includes s (String c s) = true).
  rewrite prefix_refl. reflexivity.
Qed.

Lemma array_includes_In (l : list string) (x : string) :
  array_includes l x = true <-> In x l.
Proof.
  unfold array_includes. rewrite existsb_exists. split.
  - intros (y & Hin & Heq). apply String.eqb_eq in Heq. congruence.
  - intros Hin. exists x. split; [exact Hin|apply String.eqb_refl].
Qed.

Section MoreWarningProperties.
Context `{Platform}.

Lemma importing_dep_calls (imp : option string) : calls (importing_dep imp) = [].
Proof.
  unfold importing_dep, parse. destruct imp as [imp|]; [|reflexivity].
  destruct (truthy_string imp); [|reflexivity].
  destruct (JSON_parse _) as [v|]; [|reflexivity].
  destruct v; reflexivity.
Qed.

(** The path taken for a built-in module. *)
Lemma onRollupWarning_builtin
    (w : RollupWarning) (warn : Handler) (allow : option (list string))
    (userOnWarn : option Handler) (i : string) :
  code w = Some "UNRESOLVED_IMPORT" ->
  source w = Some i -> i <> EmptyString -> isBuiltin i = true ->
  onRollupWarning w warn allow userOnWarn =
  (importingDep <- importing_dep (importer w) ;;
   if truthy importingDep && array_includes_value (default [] allow) importingDep
   then ret tt
   else throw (Error (builtin_message importingDep i (importer w)))).
Proof.
  intros Hcode Hsrc Hi Hbuiltin. unfold onRollupWarning. rewrite Hcode, Hsrc. simpl.
  destruct i as [|c i]; [congruence|]. simpl. rewrite Hbuiltin. reflexivity.
Qed.

(** What is read from a manifest that parses to an object. *)
Lemma importing_dep_object (imp : string) (props : gmap string value) :
  imp <> EmptyString ->
  JSON_parse (or_string (lookupFile imp ["package.json"]) "{}") = Some (VObject props) ->
  importing_dep (Some imp) =
  ret (if truthy (default VUndefined (props !! "name"))
       then default VUndefined (props !! "name")
       else VUndefined).
Proof.
  intros Himp Hparse. unfold importing_dep, parse.
  destruct imp as [|c imp]; [congruence|]. simpl. rewrite Hparse. reflexivity.
Qed.

(** The message for a named dependency holds what chalk returns for the
    name. *)
Lemma builtin_message_mentions_dep (dep : value) (i : string) (imp : option string) :
  truthy dep = true ->
  includes (builtin_message dep i imp) (chalk_yellow dep) = true.
Proof.
  intros Hdep. unfold builtin_message. rewrite Hdep.
  apply includes_app_l, includes_app_r, includes_refl.
Qed.

(** X12: for an unresolved import no handler is ever called, whatever the
    module, the importer, the manifest, the allow-list and the handlers
    are: the warning is escalated or dropped. *)
Theorem onRollupWarning_unresolved_no_handler
    (w : RollupWarning) (warn : Handler) (allow : option (list string))
    (userOnWarn : option Handler) :
  code w = Some "UNRESOLVED_IMPORT" ->
  calls (onRollupWarning w warn allow userOnWarn) = [].
Proof.
  intros Hcode. unfold onRollupWarning. rewrite Hcode. simpl.
  destruct (builtin_id (source w)) as [i|]; [|reflexivity].
  pose proof (importing_dep_calls (importer w)) as Hcalls.
  destruct (importing_dep (importer w)) as [cs [e|v]]; simpl in *; subst cs.
  - reflexivity.
  - destruct (truthy v && _); reflexivity.
Qed.

(** X13: the [onwarn] of [doBuild] passes the empty allow-list, so there
    every unresolved import ends in a throw, and no handler is called,
    the user's [onwarn] neither. *)
Theorem doBuild_onwarn_unresolved_throws
    (config : ResolvedConfig) (w : RollupWarning) (warn : Handler) :
  code w = Some "UNRESOLVED_IMPORT" ->
  throws (doBuild_onwarn config w warn) = true /\
  calls (doBuild_onwarn config w warn) = [].
Proof.
  intros Hcode. unfold doBuild_onwarn, onRollupWarning. rewrite Hcode. simpl.
  destruct (builtin_id (source w)) as [i|]; [|split; reflexivity].
  pose proof (importing_dep_calls (importer w)) as Hcalls.
  destruct (importing_dep (importer w)) as [cs [e|v]]; simpl in *; subst cs.
  - split; reflexivity.
  - replace (array_includes_value [] v) with false by (destruct v; reflexivity).
    rewrite andb_false_r. split; reflexivity.
Qed.

(** X14: an unresolved import whose module id is absent, empty or not a
    built-in module throws the error that names the import and the
    importer as they are written in a template (["undefined"] when
    absent); the manifest is not read and the allow-list plays no part. *)
Theorem onRollupWarning_unresolved_not_builtin
    (w : RollupWarning) (warn : Handler) (allow : option (list string))
    (userOnWarn : option Handler) :
  code w = Some "UNRESOLVED_IMPORT" ->
  source w = None \/ source w = Some EmptyString \/
  (exists i : string, source w = Some i /\ isBuiltin i = false) ->
  onRollupWarning w warn allow userOnWarn = throw (Error (unresolved_message w)) /\
  includes (unresolved_message w) (template_opt (source w)) = true /\
  includes (unresolved_message w) (template_opt (importer w)) = true.
Proof.
  intros Hcode Hsrc. split; [|split].
  - unfold onRollupWarning. rewrite Hcode. simpl.
    assert (Hid : builtin_id (source w) = None).
    { destruct Hsrc as [-> | [-> | (i & -> & Hb)]]; [reflexivity..|].
      simpl. rewrite Hb, andb_false_r. reflexivity. }
    rewrite Hid. reflexivity.
  - unfold unresolved_message.
    apply includes_app_r, includes_app_r, includes_app_l, includes_refl.
  - unfold unresolved_message.
    do 6 apply includes_app_r. apply includes_app_l, includes_refl.
Qed.

(** X15: a warning that is not an unresolved import is dropped when it is
    noise of the dynamic-import plugin or when its code is in the ignore
    list; otherwise exactly one call is made, with the warning as it was
    received: the user's handler (with the default handler as second
    argument) when there is one, the default handler when there is
    none. *)
Theorem onRollupWarning_forwarding
    (w : RollupWarning) (warn : Handler) (allow : option (list string))
    (userOnWarn : option Handler) :
  code w <> Some "UNRESOLVED_IMPORT" ->
  let noise :=
    plugin w = Some "rollup-plugin-dynamic-import-variables" /\
    (includes (message w) "Unsupported expression" = true \/
     includes (message w) "statically analyzed" = true) in
  let ignored :=
    code w = Some "CIRCULAR_DEPENDENCY" \/ code w = Some "THIS_IS_UNDEFINED" in
  (noise \/ ignored -> onRollupWarning w warn allow userOnWarn = ret tt) /\
  (~ (noise \/ ignored) ->
   onRollupWarning w warn allow userOnWarn =
   call match userOnWarn with
        | Some u => CallUserOnWarn u w warn
        | None => CallWarn warn w
        end).
Proof.
  intros Hcode noise ignored. unfold onRollupWarning.
  rewrite (bool_decide_eq_false_2 _ Hcode).
  assert (Hnoise : bool_decide (plugin w = Some "rollup-plugin-dynamic-import-variables") &&
                   existsb (fun msg => includes (message w) msg)
                           dynamicImportWarningIgnoreList = true <-> noise).
  { unfold noise. rewrite andb_true_iff, bool_decide_eq_true. simpl.
    rewrite !orb_true_iff. intuition discriminate. }
  assert (Hignored : match code w with
                     | Some c => array_includes warningIgnoreList c
                     | None => false
                     end = true <-> ignored).
  { unfold ignored. destruct (code w) as [c|].
    - rewrite array_includes_In. simpl. split.
      + intros [<- | [<- | []]]; auto.
      + intros [[= <-] | [= <-]]; auto.
    - split; [discriminate|]. intros [? | ?]; discriminate. }
  destruct (bool_decide _ && existsb _ _).
  { split; [reflexivity|]. intros Hn. contradiction Hn. left. apply Hnoise. reflexivity. }
  destruct (match code w with Some c => _ | None => _ end); simpl.
  { split; [reflexivity|]. intros Hn. contradiction Hn. right. apply Hignored. reflexivity. }
  split.
  - intros [Hn | Hi]; [apply Hnoise in Hn | apply Hignored in Hi]; discriminate.
  - intros _. destruct userOnWarn; reflexivity.
Qed.

(** X16: for a built-in module and an importer, a manifest that is not
    JSON makes [onRollupWarning] throw the [SyntaxError] of [JSON.parse],
    and a manifest that is the JSON text [null] a [TypeError], in place
    of the error that describes the import; the allow-list plays no
    part. *)
Theorem onRollupWarning_manifest_unreadable
    (w : RollupWarning) (warn : Handler) (allow : option (list string))
    (userOnWarn : option Handler) (i imp : string) (parsed : option value) :
  code w = Some "UNRESOLVED_IMPORT" ->
  source w = Some i -> i <> EmptyString -> isBuiltin i = true ->
  importer w = Some imp -> imp <> EmptyString ->
  JSON_parse (or_string (lookupFile imp ["package.json"]) "{}") = parsed ->
  parsed = None \/ parsed = Some VNull ->
  onRollupWarning w warn allow userOnWarn =
  throw (match parsed with None => SyntaxError | Some _ => TypeError end).
Proof.
  intros Hcode Hsrc Hi Hbuiltin Himp Himpne Hparse Hcase.
  rewrite (onRollupWarning_builtin w warn allow userOnWarn i Hcode Hsrc Hi Hbuiltin).
  rewrite Himp. unfold importing_dep, parse.
  destruct imp as [|c imp]; [congruence|]. simpl. rewrite Hparse.
  destruct Hcase as [-> | ->]; reflexivity.
Qed.

(** X17: for a built-in module and an importer whose manifest parses to
    an object without a [name] (the object [{}] that stands for a missing
    manifest among them), the error is thrown for every allow-list, and
    its message is the one for an unnamed dependency. *)
Theorem onRollupWarning_manifest_without_name
    (w : RollupWarning) (warn : Handler) (allow : option (list string))
    (userOnWarn : option Handler) (i imp : string) (props : gmap string value) :
  code w = Some "UNRESOLVED_IMPORT" ->
  source w = Some i -> i <> EmptyString -> isBuiltin i = true ->
  importer w = Some imp -> imp <> EmptyString ->
  JSON_parse (or_string (lookupFile imp ["package.json"]) "{}") = Some (VObject props) ->
  props !! "name" = None ->
  onRollupWarning w warn allow userOnWarn =
    throw (Error (builtin_message VUndefined i (Some imp))) /\
  String.prefix "A dependency is attempting to import"
    (builtin_message VUndefined i (Some imp)) = true.
Proof.
  intros Hcode Hsrc Hi Hbuiltin Himp Himpne Hparse Hname. split; [|reflexivity].
  rewrite (onRollupWarning_builtin w warn allow userOnWarn i Hcode Hsrc Hi Hbuiltin).
  rewrite Himp, (importing_dep_object imp props Himpne Hparse), Hname. reflexivity.
Qed.

(** X18: for a built-in module and an importer whose manifest has a name
    that is a string, not empty, the warning is dropped if and only if
    the name is in the allow-list; when it is not, the error thrown has a
    message that holds what chalk returns for the name and for the
    module id. *)
Theorem onRollupWarning_allow_list_iff
    (w : RollupWarning) (warn : Handler) (allow : list string)
    (userOnWarn : option Handler) (i imp n : string) (props : gmap string value) :
  code w = Some "UNRESOLVED_IMPORT" ->
  source w = Some i -> i <> EmptyString -> isBuiltin i = true ->
  importer w = Some imp -> imp <> EmptyString ->
  JSON_parse (or_string (lookupFile imp ["package.json"]) "{}") = Some (VObject props) ->
  props !! "name" = Some (VString n) -> n <> EmptyString ->
  (onRollupWarning w warn (Some allow) userOnWarn = ret tt <-> In n allow) /\
  (~ In n allow ->
   onRollupWarning w warn (Some allow) userOnWarn =
     throw (Error (builtin_message (VString n) i (Some imp))) /\
   includes (builtin_message (VString n) i (Some imp)) (chalk_yellow (VString n)) = true /\
   includes (builtin_message (VString n) i (Some imp)) (chalk_yellow (VString i)) = true).
Proof.
  intros Hcode Hsrc Hi Hbuiltin Himp Himpne Hparse Hname Hn.
  assert (Hrun : onRollupWarning w warn (Some allow) userOnWarn =
                 if array_includes allow n then ret tt
                 else throw (Error (builtin_message (VString n) i (Some imp)))).
  { rewrite (onRollupWarning_builtin w warn (Some allow) userOnWarn i Hcode Hsrc Hi Hbuiltin).
    rewrite Himp, (importing_dep_object imp props Himpne Hparse), Hname.
    destruct n as [|c n]; [congruence|]. unfold bind, ret. simpl.
    destruct (array_includes allow (String c n)); reflexivity. }
  rewrite Hrun, <- array_includes_In. split.
  - destruct (array_includes allow n); split; (reflexivity || discriminate).
  - intros Hnot. destruct (array_includes allow n); [contradiction Hnot; reflexivity|].
    split; [reflexivity|]. split.
    + apply builtin_message_mentions_dep. destruct n; [congruence|reflexivity].
    + apply builtin_message_mentions, includes_refl.
Qed.

End MoreWarningProperties.

Lemma onRollupWarning_unresolved_no_handler_witness :
  calls (@onRollupWarning (example_platform "dep")
           (unresolved_import "fs" (Some "/project/node_modules/dep/index.js"))
           1%positive (Some ["dep"]) (Some 2%positive)) = [].
Proof.
  exact (@onRollupWarning_unresolved_no_handler (example_platform "dep")
           (unresolved_import "fs" (Some "/project/node_modules/dep/index.js"))
           1%positive (Some ["dep"]) (Some 2%positive) eq_refl).
Defined.

Lemma doBuild_onwarn_unresolved_throws_witness :
  let w := unresolved_import "fs" (Some "/project/node_modules/dep/index.js") in
  throws (@doBuild_onwarn (example_platform "dep") (example_config None) w 1%positive) = true /\
  calls (@doBuild_onwarn (example_platform "dep") (example_config None) w 1%positive) = [].
Proof.
  intros w.
  exact (@doBuild_onwarn_unresolved_throws (example_platform "dep")
           (example_config None) w 1%positive eq_refl).
Defined.

Lemma onRollupWarning_unresolved_not_builtin_witness :
  let w := unresolved_import "lodash" (Some "/project/src/main.js") in
  @onRollupWarning (example_platform "dep") w 1%positive None None =
    throw (Error (unresolved_message w)) /\
  includes (unresolved_message w) "lodash" = true /\
  includes (unresolved_message w) "/project/src/main.js" = true.
Proof.
  intros w.
  apply (@onRollupWarning_unresolved_not_builtin (example_platform "dep")
           w 1%positive None None eq_refl).
  right. right. exists "lodash". split; reflexivity.
Defined.

Lemma onRollupWarning_forwarding_witness :
  let w :=
    {| code := Some "EVAL"; message := "Use of eval is strongly discouraged";
       source := None; importer := None; plugin := None;
       loc := None; frame := None |} in
  @onRollupWarning (example_platform "dep") w 1%positive None (Some 2%positive) =
    call (CallUserOnWarn 2%positive w 1%positive) /\
  @onRollupWarning (example_platform "dep") w 1%positive None None =
    call (CallWarn 1%positive w).
Proof.
  intros w.
  assert (Hcode : code w <> Some "UNRESOLVED_IMPORT") by discriminate.
  assert (Hkept :
    ~ ((plugin w = Some "rollup-plugin-dynamic-import-variables" /\
        (includes (message w) "Unsupported expression" = true \/
         includes (message w) "statically analyzed" = true)) \/
       (code w = Some "CIRCULAR_DEPENDENCY" \/ code w = Some "THIS_IS_UNDEFINED"))).
  { intros [[Hp _] | [Hc | Hc]]; discriminate. }
  split.
  - exact (proj2 (@onRollupWarning_forwarding (example_platform "dep")
                    w 1%positive None (Some 2%positive) Hcode) Hkept).
  - exact (proj2 (@onRollupWarning_forwarding (example_platform "dep")
                    w 1%positive None None Hcode) Hkept).
Defined.

Lemma onRollupWarning_manifest_unreadable_witness :
  let w := unresolved_import "fs" (Some "/project/node_modules/dep/index.js") in
  @onRollupWarning (manifest_platform (Some "not json") None) w 1%positive
    (Some ["dep"]) None = throw SyntaxError /\
  @onRollupWarning (manifest_platform (Some "null") (Some VNull)) w 1%positive
    (Some ["dep"]) None = throw TypeError.
Proof.
  intros w. split.
  - apply (@onRollupWarning_manifest_unreadable (manifest_platform (Some "not json") None)
             w 1%positive (Some ["dep"]) None
             "fs" "/project/node_modules/dep/index.js" None);
      try reflexivity; try discriminate. left. reflexivity.
  - apply (@onRollupWarning_manifest_unreadable
             (manifest_platform (Some "null") (Some VNull))
             w 1%positive (Some ["dep"]) None
             "fs" "/project/node_modules/dep/index.js" (Some VNull));
      try reflexivity; try discriminate. right. reflexivity.
Defined.

Lemma onRollupWarning_manifest_without_name_witness :
  let w := unresolved_import "fs" (Some "/project/src/main.js") in
  @onRollupWarning (manifest_platform None None) w 1%positive (Some ["dep"]) None =
    throw (Error (@builtin_message (manifest_platform None None)
                    VUndefined "fs" (Some "/project/src/main.js"))).
Proof.
  intros w.
  apply (@onRollupWarning_manifest_without_name (manifest_platform None None)
           w 1%positive (Some ["dep"]) None "fs" "/project/src/main.js" ∅);
    try reflexivity; discriminate.
Defined.

Lemma onRollupWarning_allow_list_iff_witness :
  let w := unresolved_import "fs" (Some "/project/node_modules/dep/index.js") in
  ~ In "dep" ["other"] /\
  @onRollupWarning (example_platform "dep") w 1%positive (Some ["other"]) None =
    throw (Error (@builtin_message (example_platform "dep") (VString "dep") "fs"
                    (Some "/project/node_modules/dep/index.js"))).
Proof.
  intros w.
  assert (Hnot : ~ In "dep" ["other"]) by (intros [Heq | []]; discriminate).
  split; [exact Hnot|].
  refine (proj1 (proj2 (@onRollupWarning_allow_list_iff (example_platform "dep")
            w 1%positive ["other"] None
            "fs" "/project/node_modules/dep/index.js" "dep" {["name" := VString "dep"]}
            eq_refl eq_refl _ eq_refl eq_refl _ eq_refl eq_refl _) Hnot));
    discriminate.
Defined.

(** ** Generation: the options of a bundle call *)

Section GenerationProperties.
Context `{Platform} `{Runtime}.

Lemma generate_options_lookup
    (config : ResolvedConfig) (pkgName : value) (output : OutputOptions) (k : string) :
  bundle_call_options (generate config pkgName (Some output)) !! k =
  match output !! k with
  | Some v => Some v
  | None => generate_defaults config pkgName output !! k
  end.
Proof.
  unfold generate.
  destruct (write (build config)); simpl; rewrite lookup_union;
    destruct (output !! k), (generate_defaults config pkgName output !! k); reflexivity.
Qed.

(** X19: every property of the output target reaches the bundle call as
    it is, in place of what [generate] computes for that property: this
    holds for [dir], [format] and [namespaceToStringTag] too, which are
    [outDir] resolved against the root, ['es'] and [true] only when the
    target does not have them.  The call is [write] exactly when the
    [write] option is enabled. *)
Theorem generate_output_wins
    (config : ResolvedConfig) (pkgName : value) (output : OutputOptions) :
  let call := generate config pkgName (Some output) in
  (forall (k : string) (v : value),
      output !! k = Some v -> bundle_call_options call !! k = Some v) /\
  (output !! "dir" = None ->
   bundle_call_options call !! "dir" =
     Some (VString (path_resolve (root config) (outDir (build config))))) /\
  (output !! "format" = None ->
   bundle_call_options call !! "format" = Some (VString "es")) /\
  (output !! "namespaceToStringTag" = None ->
   bundle_call_options call !! "namespaceToStringTag" = Some (VBool true)) /\
  (call = BundleWrite (bundle_call_options call) <-> write (build config) = true).
Proof.
  intros call. unfold call. split; [|split; [|split; [|split]]].
  - intros k v Hk. rewrite generate_options_lookup, Hk. reflexivity.
  - intros Hk. rewrite generate_options_lookup, Hk. reflexivity.
  - intros Hk. rewrite generate_options_lookup, Hk. reflexivity.
  - intros Hk. rewrite generate_options_lookup, Hk. reflexivity.
  - unfold generate. destruct (write (build config)); split;
      (reflexivity || discriminate).
Qed.

Lemma format_or_es_with_format (o : OutputOptions) (f : LibraryFormats) :
  format_or_es (with_format o f) = VString (format_string f).
Proof.
  unfold format_or_es. rewrite with_format_lookup. destruct f; reflexivity.
Qed.

(** X20: in library mode, for a target that [resolveBuildOutputs] built
    from an override without [entryFileNames], the entry file name is
    [<package name>.<format>.js] with the format of the target, so two
    targets with different formats never share their entry file name.
    That a string converts to itself is what is assumed of the
    conversion. *)
Theorem generate_library_entry_names
    (config : ResolvedConfig) (l : LibraryOptions) (pkgName : value) (o : OutputOptions) :
  lib (build config) = Some l ->
  o !! "entryFileNames" = None ->
  (forall s : string, ToString (VString s) = s) ->
  (forall f : LibraryFormats,
      bundle_call_options (generate config pkgName (Some (with_format o f)))
        !! "entryFileNames" =
      Some (VString (ToString pkgName +:+ "." +:+ format_string f +:+ ".js"))) /\
  (forall f g : LibraryFormats,
      bundle_call_options (generate config pkgName (Some (with_format o f)))
        !! "entryFileNames" =
      bundle_call_options (generate config pkgName (Some (with_format o g)))
        !! "entryFileNames" ->
      f = g).
Proof.
  intros Hlib Ho Hstr.
  assert (Hentry : forall f : LibraryFormats,
    bundle_call_options (generate config pkgName (Some (with_format o f)))
      !! "entryFileNames" =
    Some (VString (ToString pkgName +:+ "." +:+ format_string f +:+ ".js"))).
  { intros f. rewrite generate_options_lookup.
    rewrite with_format_lookup_other, Ho by discriminate.
    unfold generate_defaults. rewrite Hlib, format_or_es_with_format, Hstr.
    reflexivity. }
  split; [exact Hentry|].
  intros f g. rewrite !Hentry. intros [= Heq].
  apply (inj (String.app (ToString pkgName))) in Heq.
  destruct f, g; (reflexivity || discriminate Heq).
Qed.

(** X21: when [doBuild] reaches the generation, in library mode with an
    override that is not an array it makes one bundle call for each
    requested format, and without library mode and with an override that
    is not an array exactly one call. *)
Theorem doBuild_generate_count
    (config : ResolvedConfig) (pkgName : value) (cs : list Call) (made : list BundleCall) :
  doBuild_generate config pkgName = (cs, inr made) ->
  (forall os : list OutputOptions, output (rollupOptions (build config)) <> OutArray os) ->
  length made =
    match lib (build config) with
    | Some l => length (requested_formats l)
    | None => 1
    end.
Proof.
  unfold doBuild_generate, resolveBuildOutputs. intros Hrun Harr.
  destruct (lib (build config)) as [l|].
  - destruct ((_ || _) && _); [discriminate|].
    destruct (output (rollupOptions (build config))) as [|o|os];
      [| |contradiction (Harr os); reflexivity];
      injection Hrun as <- <-; rewrite !length_fmap; reflexivity.
  - destruct (output (rollupOptions (build config))) as [|o|os];
      [| |contradiction (Harr os); reflexivity];
      injection Hrun as <- <-; reflexivity.
Qed.

End GenerationProperties.

Lemma generate_output_wins_witness :
  bundle_call_options
    (@generate example_runtime (example_config None) (VBool false)
       (Some {["namespaceToStringTag" := VBool false]}))
    !! "namespaceToStringTag" = Some (VBool false).
Proof.
  apply (proj1 (@generate_output_wins example_runtime (example_config None) (VBool false)
                  {["namespaceToStringTag" := VBool false]})).
  reflexivity.
Defined.

Lemma generate_library_entry_names_witness :
  let config :=
    example_config (Some (raw_library (lib_spec (Some "MyLib") None) OutUndefined)) in
  bundle_call_options
    (@generate example_runtime config (VString "my-lib") (Some (with_format ∅ umd)))
    !! "entryFileNames" = Some (VString "my-lib.umd.js").
Proof.
  intros config.
  apply (proj1 (@generate_library_entry_names example_runtime config
                  (lib_spec (Some "MyLib") None) (VString "my-lib") ∅
                  eq_refl (lookup_empty _) (fun s => eq_refl))).
Defined.

Lemma doBuild_generate_count_witness :
  let config :=
    example_config (Some (raw_library (lib_spec (Some "MyLib") None) OutUndefined)) in
  exists made : list BundleCall,
    @doBuild_generate (example_platform "my-lib") example_runtime config (VString "my-lib") =
      ret made /\
    length made = 2.
Proof.
  intros config. eexists. split; [reflexivity|].
  refine (@doBuild_generate_count (example_platform "my-lib") example_runtime
            config (VString "my-lib") [] _ eq_refl _).
  intros os. discriminate.
Defined.

(** ** Parallel builds: the counter and the teardown *)

Lemma reachable_step (p p' : Process) : reachable p -> step p p' -> reachable p'.
Proof. intros Hp Hstep. exact (rtc_r _ _ _ Hp Hstep). Qed.

(** What every reachable state satisfies. *)
Lemma reachable_invariant (p : Process) :
  reachable p ->
  parallelCallCounts (tracker p) = Z.of_nat (size (in_flight p)) /\
  registered p = (closed p ++ paralellBuilds (tracker p))%list /\
  (in_flight p = ∅ -> paralellBuilds (tracker p) = []).
Proof.
  intros Hp. pattern p.
  apply (rtc_ind_r (R := step) _ process_loaded); [| |exact Hp]; clear p Hp.
  - split; [reflexivity|]. split; reflexivity.
  - intros p p' _ Hstep IH. destruct IH as (Hcount & Hreg & Hidle).
    destruct Hstep as [p c Hc | p c bundle Hc | p c pushed Hc]; simpl.
    + rewrite (map_size_insert_None _ _ _ Hc), Hcount. repeat split.
      * lia.
      * exact Hreg.
      * intros Hempty. contradiction (insert_non_empty _ _ _ Hempty).
    + rewrite map_size_insert_Some by eauto. repeat split.
      * exact Hcount.
      * rewrite Hreg, app_assoc. reflexivity.
      * intros Hempty. contradiction (insert_non_empty _ _ _ Hempty).
    + assert (Hpos : size (in_flight p) <> 0%nat).
      { apply map_size_non_empty_iff. intros Hempty.
        rewrite Hempty, lookup_empty in Hc. discriminate. }
      rewrite map_size_delete_Some by eauto.
      unfold build_finally. rewrite Hcount.
      destruct (Z.leb_spec (Z.of_nat (size (in_flight p)) - 1) 0) as [Hle | Hgt]; simpl.
      * repeat split; [lia|rewrite app_nil_r; exact Hreg].
      * repeat split; [lia|rewrite app_nil_r; exact Hreg|].
        intros Hempty. apply map_size_empty_iff in Hempty.
        rewrite map_size_delete_Some in Hempty by eauto. lia.
Qed.

(** X22: in every reachable state the counter is the number of calls of
    [build] that have entered and have not yet run their [finally]
    block; it is never negative. *)
Theorem tracker_count_in_flight (p : Process) :
  reachable p ->
  parallelCallCounts (tracker p) = Z.of_nat (size (in_flight p)) /\
  (0 <= parallelCallCounts (tracker p))%Z.
Proof.
  intros Hp. destruct (reachable_invariant p Hp) as (Hcount & _).
  split; [exact Hcount|lia].
Qed.

(** X23: a step closes bundles only when it leaves no call in flight:
    while another call of [build] is running no bundle is closed, the
    bundle of a call that has finished neither.  The step that closes
    empties the registry and has then closed every bundle registered so
    far. *)
Theorem tracker_closes_only_when_idle (p p' : Process) :
  reachable p -> step p p' -> closed p' <> closed p ->
  in_flight p' = ∅ /\
  paralellBuilds (tracker p') = [] /\
  closed p' = registered p'.
Proof.
  intros Hp Hstep Hclosed.
  destruct (reachable_invariant p Hp) as (Hcount & Hreg & _).
  destruct Hstep as [p c Hc | p c bundle Hc | p c pushed Hc]; simpl in *;
    [contradiction Hclosed; reflexivity..|].
  assert (Hpos : size (in_flight p) <> 0%nat).
  { apply map_size_non_empty_iff. intros Hempty.
    rewrite Hempty, lookup_empty in Hc. discriminate. }
  unfold build_finally in *. rewrite Hcount in *.
  destruct (Z.leb_spec (Z.of_nat (size (in_flight p)) - 1) 0) as [Hle | Hgt]; simpl in *.
  - repeat split.
    + apply map_size_empty_iff. rewrite map_size_delete_Some by eauto. lia.
    + symmetry. exact Hreg.
  - contradiction Hclosed. apply app_nil_r.
Qed.

(** X24: no bundle is lost and none is closed twice: the bundles
    registered so far are those closed so far followed by those still in
    the registry, in the order of their registration; and when no call is
    in flight the registry is empty, the counter is zero and every
    registered bundle has been closed. *)
Theorem tracker_closes_every_bundle (p : Process) :
  reachable p ->
  registered p = (closed p ++ paralellBuilds (tracker p))%list /\
  (in_flight p = ∅ ->
   paralellBuilds (tracker p) = [] /\
   parallelCallCounts (tracker p) = 0%Z /\
   closed p = registered p).
Proof.
  intros Hp. destruct (reachable_invariant p Hp) as (Hcount & Hreg & Hidle).
  split; [exact Hreg|]. intros Hempty.
  specialize (Hidle Hempty). rewrite Hidle, app_nil_r in Hreg.
  repeat split; [exact Hidle| |symmetry; exact Hreg].
  rewrite Hcount, Hempty, map_size_empty. reflexivity.
Qed.

Lemma reachable_one_of_two_finished : reachable one_of_two_finished.
Proof.
  unfold one_of_two_finished.
  apply reachable_step with (p := register 1 10 (enter 2 (enter 1 process_loaded)));
    [|apply (step_finish _ 1%positive true); reflexivity].
  apply reachable_step with (p := enter 2 (enter 1 process_loaded));
    [|apply step_register; reflexivity].
  apply reachable_step with (p := enter 1 process_loaded);
    [|apply step_enter; reflexivity].
  apply reachable_step with (p := process_loaded);
    [apply rtc_refl|apply step_enter; reflexivity].
Defined.

Lemma tracker_count_in_flight_witness :
  parallelCallCounts (tracker one_of_two_finished) =
    Z.of_nat (size (in_flight one_of_two_finished)) /\
  (0 <= parallelCallCounts (tracker one_of_two_finished))%Z.
Proof.
  exact (tracker_count_in_flight one_of_two_finished reachable_one_of_two_finished).
Defined.

Lemma tracker_closes_only_when_idle_witness :
  let p := register 2 20 one_of_two_finished in
  closed (finish 2 p) <> closed p /\
  in_flight (finish 2 p) = ∅ /\
  paralellBuilds (tracker (finish 2 p)) = [] /\
  closed (finish 2 p) = registered (finish 2 p).
Proof.
  intros p.
  assert (Hp : reachable p).
  { apply reachable_step with (p := one_of_two_finished);
      [exact reachable_one_of_two_finished|apply step_register; reflexivity]. }
  assert (Hstep : step p (finish 2 p)) by (apply (step_finish _ 2%positive true); reflexivity).
  assert (Hclosed : closed (finish 2 p) <> closed p) by discriminate.
  split; [exact Hclosed|].
  exact (tracker_closes_only_when_idle p (finish 2 p) Hp Hstep Hclosed).
Defined.

Lemma tracker_closes_every_bundle_witness :
  registered both_finished =
    (closed both_finished ++ paralellBuilds (tracker both_finished))%list /\
  (in_flight both_finished = ∅ ->
   paralellBuilds (tracker both_finished) = [] /\
   parallelCallCounts (tracker both_finished) = 0%Z /\
   closed both_finished = registered both_finished).
Proof.
  apply tracker_closes_every_bundle. unfold both_finished.
  apply reachable_step with (p := register 2 20 one_of_two_finished);
    [|apply (step_finish _ 2%positive true); reflexivity].
  apply reachable_step with (p := one_of_two_finished);
    [exact reachable_one_of_two_finished|apply step_register; reflexivity].
Defined.

(** ** From the raw options to the plugin list *)

(** X25: for a configuration whose build options were resolved from raw
    options, the minifier plugin is in the plugin list if and only if the
    raw [minify] is absent, or is truthy and neither the string ['false']
    nor ['esbuild']: the string ['false'], which is truthy, disables the
    minifier as the boolean does. *)
Theorem resolveBuildPlugins_of_raw_minify (raw : Raw.BuildOptions) (config : ResolvedConfig) :
  build config = resolveBuildOptions (Some raw) ->
  contains_terser (resolveBuildPlugins config) = true <->
  match Raw.minify raw with
  | None => True
  | Some m =>
      truthy_minify m = true /\ m <> MinifyString "false" /\ m <> MinifyString "esbuild"
  end.
Proof.
  intros Hbuild.
  rewrite resolveBuildPlugins_terser, Hbuild, resolveBuildOptions_minify.
  simpl. destruct (Raw.minify raw) as [m|]; simpl.
  - case_decide as Hfalse.
    + rewrite Hfalse. simpl. split; [discriminate|]. intros (_ & Hne & _). congruence.
    + rewrite andb_true_iff, negb_true_iff, bool_decide_eq_false. tauto.
  - split; [tauto|]. intros _. reflexivity.
Qed.

Lemma resolveBuildPlugins_of_raw_minify_witness :
  contains_terser
    (resolveBuildPlugins
       (example_config (Some (raw_with None (Some (MinifyString "false")))))) = true <->
  truthy_minify (MinifyString "false") = true /\
  MinifyString "false" <> MinifyString "false" /\
  MinifyString "false" <> MinifyString "esbuild".
Proof.
  exact (resolveBuildPlugins_of_raw_minify
           (raw_with None (Some (MinifyString "false")))
           (example_config (Some (raw_with None (Some (MinifyString "false")))))
           eq_refl).
Defined.
